(** * Shop statistics controller (shopStatisticController.js)

    A shallow embedding of the five report handlers and of the shared
    percentage helper, together with the part of the JavaScript and MongoDB
    semantics the handlers rely on.

    Conventions of the embedding.
    - The percentage helper is embedded twice. [Binary64.calculatePercentageDiff]
      is the helper as Node evaluates it, on IEEE 754 doubles, with the
      operations of the Standard Library's [SpecFloat] at precision 53 and
      [toFixed] and [parseFloat] as ECMAScript defines them; what is proved
      of the helper itself is proved of this one.
      [calculatePercentageDiff] is the same text over exact rationals with
      infinities and NaN ([number]), and is the one the global report
      carries: the amounts and counts of the reports are exact, so are the
      sums of the store, and the sign of zero is not kept. The two agree
      where the previous value is 0, and on the diffs 0 and -100; elsewhere
      the exact one can differ from the double one in the last hundredth
      (183 against 160 is 14.38 exactly and 14.37 in doubles) and does not
      overflow.
    - A collection whose documents are found by [_id] is a finite map from
      identifiers; the order collection is a list, in the order the store
      scans it. An identifier is a natural number: the shop id of the
      caller, when there is one, is a value [new mongoose.Types.ObjectId]
      accepts, and the case in which that constructor throws is outside the
      embedding.
    - The sum of a [$sum] accumulator is the exact sum of its terms; the
      theorems only name it, and none equates a sum of sums with a sum.
    - What MongoDB leaves open (the order of the rows a [$group] emits, the
      order of rows with equal [$sort] keys, the order of [distinct] values)
      is chosen by an [engine], and what Node leaves open (date parsing, the
      time zone) by a [host]. Theorems quantify over both. *)

From stdpp Require Import base numbers list strings gmap sorting pretty.
From Stdlib Require Import Ascii QArith Qround Qcanon Qabs Lqa.
From Stdlib Require SpecFloat.

(** ** Exact numbers *)

Module JsNumber.

Inductive number :=
  | Fin (q : Qc)
  | Inf (negative : bool)
  | NaN.

Definition of_nat (n : nat) : number := Fin (Q2Qc (inject_Z (Z.of_nat n))).
Definition of_Z (z : Z) : number := Fin (Q2Qc (inject_Z z)).

(** [a === b] on numbers. *)
Definition strict_eq (a b : number) : bool :=
  match a, b with
  | Fin x, Fin y => bool_decide (x = y)
  | Inf s, Inf t => bool_decide (s = t)
  | _, _ => false
  end.

(** [a > b]. *)
Definition gt (a b : number) : bool :=
  match a, b with
  | Fin x, Fin y => bool_decide (y < x)%Qc
  | Fin _, Inf t => t
  | Inf s, Fin _ => negb s
  | Inf s, Inf t => negb s && t
  | _, _ => false
  end.

(** [a - b]. *)
Definition sub (a b : number) : number :=
  match a, b with
  | Fin x, Fin y => Fin (x - y)%Qc
  | Fin _, Inf t => Inf (negb t)
  | Inf s, Fin _ => Inf s
  | Inf s, Inf t => if bool_decide (s = t) then NaN else Inf s
  | _, _ => NaN
  end.

Definition is_negative (q : Qc) : bool := bool_decide (q < 0)%Qc.

(** [a * b]. *)
Definition mul (a b : number) : number :=
  match a, b with
  | Fin x, Fin y => Fin (x * y)%Qc
  | Fin x, Inf t | Inf t, Fin x =>
      if bool_decide (x = 0%Qc) then NaN else Inf (xorb (is_negative x) t)
  | Inf s, Inf t => Inf (xorb s t)
  | _, _ => NaN
  end.

(** [a / b]; a finite zero divisor is the positive zero. *)
Definition div (a b : number) : number :=
  match a, b with
  | Fin x, Fin y =>
      if bool_decide (y = 0%Qc)
      then (if bool_decide (x = 0%Qc) then NaN else Inf (is_negative x))
      else Fin (x / y)%Qc
  | Fin _, Inf _ => Fin 0%Qc
  | Inf s, Fin y => Inf (xorb s (is_negative y))
  | _, _ => NaN
  end.

(** The value printed by [x.toFixed(2)] for a finite [x]: the sign is split
    off, and the magnitude goes to the integer [n] with [n / 100] closest to
    it, the larger one when two are as close. Above 10^21 [toFixed] prints
    the number itself; a double of that size is an integer, which the
    rounding below leaves as it is. *)
Definition toFixed2 (q : Qc) : Qc :=
  let n := Qfloor (Qabs q * 100 + (1 # 2))%Q in
  Q2Qc ((Z.sgn (Qnum q) * n) # 100).

(** [parseFloat(x.toFixed(2))]: the infinities and NaN print as their names,
    which [parseFloat] reads back. *)
Definition parseFloat_toFixed2 (x : number) : number :=
  match x with
  | Fin q => Fin (toFixed2 q)
  | other => other
  end.

End JsNumber.

Import JsNumber.

Local Open Scope Z_scope.

(** ** The helper *)

(** The helper over exact numbers, as the global report carries it. *)
Definition calculatePercentageDiff (current previous : number) : number :=
  if strict_eq previous (of_Z 0) then
    (if gt current (of_Z 0) then of_Z 100 else of_Z 0)
  else
    parseFloat_toFixed2 (mul (div (sub current previous) previous) (of_Z 100)).

(** ** The helper in double precision *)

Module Binary64.
Import SpecFloat.

(** A JavaScript number: an IEEE 754 binary64 value, with the sign of zero
    and one NaN. A finite non-zero value [S754_finite s m e] is
    [(-1)^s * m * 2^e]. *)
Abbreviation double := spec_float.

Definition prec : Z := 53.
Definition emax : Z := 1024.

(** A whole number as a number literal: the double nearest to it. *)
Definition of_Z (z : Z) : double := binary_normalize prec emax z 0 false.

(** [a === b], [a > b], [a - b], [a / b] and [a * b] on numbers. *)
Definition strict_eq (a b : double) : bool := SFeqb a b.
Definition gt (a b : double) : bool := SFltb b a.
Definition sub (a b : double) : double := SFsub prec emax a b.
Definition div (a b : double) : double := SFdiv prec emax a b.
Definition mul (a b : double) : double := SFmul prec emax a b.

(** The magnitude [m * 2^e] of a finite double, as a fraction. *)
Definition magnitude (m : positive) (e : Z) : Q :=
  match e with
  | Z.neg k => Z.pos m # 2 ^ k
  | _ => inject_Z (Z.pos m * 2 ^ e)
  end.

(** [m * 2^e >= 10^21]. *)
Definition at_least_1e21 (m : positive) (e : Z) : bool :=
  match e with
  | Z.neg k => bool_decide (10 ^ 21 * 2 ^ Z.pos k ≤ Z.pos m)
  | _ => bool_decide (10 ^ 21 ≤ Z.pos m * 2 ^ e)
  end.

(** The integer [n] for which [n / 100 - m * 2^e] is as close to zero as
    possible, the larger one when there are two: the floor of
    [100 * m * 2^e + 1/2]. *)
Definition hundredths (m : positive) (e : Z) : Z :=
  match e with
  | Z.neg k => (200 * Z.pos m + 2 ^ Z.pos k) `div` 2 ^ (Z.pos k + 1)
  | _ => 100 * (Z.pos m * 2 ^ e)
  end.

(** What [toFixed(2)] prints: a sign and the digits of a whole number of
    hundredths, with the point before the last two; or, for NaN, an
    infinity and a magnitude from 10^21 on, what [ToString] prints, which
    reads back as the number itself. *)
Inductive printed :=
  | Decimal (negative : bool) (n : Z)
  | Literal (x : double).

(** [x.toFixed(2)]. Only a number below zero gets the sign, so that the
    negative zero prints as [0.00], and a negative number that rounds to
    zero as [-0.00]. *)
Definition toFixed2 (x : double) : printed :=
  match x with
  | S754_zero _ => Decimal false 0
  | S754_finite s m e =>
      if at_least_1e21 m e then Literal x else Decimal s (hundredths m e)
  | _ => Literal x
  end.

(** The double nearest to [n / d], ties to even, with the given sign. *)
Definition nearest (negative : bool) (n d : Z) : double :=
  let '(m, e, l) := SFdiv_core_binary prec emax n 0 d 0 in
  binary_round_aux prec emax negative m e l.

(** [parseFloat] of what [toFixed(2)] printed. *)
Definition parseFloat (s : printed) : double :=
  match s with
  | Decimal negative n => nearest negative n 100
  | Literal x => x
  end.

Definition calculatePercentageDiff (current previous : double) : double :=
  if strict_eq previous (of_Z 0) then
    (if gt current (of_Z 0) then of_Z 100 else of_Z 0)
  else
    parseFloat (toFixed2 (mul (div (sub current previous) previous) (of_Z 100))).

(** The formula of the specification, [round_to_2_decimals((current -
    previous) / previous * 100)], read with JavaScript arithmetic. *)
Definition spec_percentage_formula (current previous : double) : double :=
  parseFloat (toFixed2 (mul (div (sub current previous) previous) (of_Z 100))).

(** The exact number a double stands for, the sign of zero dropped. *)
Definition value (x : double) : number :=
  match x with
  | S754_zero _ => Fin 0%Qc
  | S754_finite s m e =>
      Fin (Q2Qc (if s then - magnitude m e else magnitude m e)%Q)
  | S754_infinity s => Inf s
  | S754_nan => NaN
  end.

End Binary64.

(** ** Strings and dates of the host *)

Module JsString.

(** The ASCII part of the white space [parseInt] skips. *)
Definition is_white_space (a : ascii) : bool :=
  let n := Z.of_nat (Ascii.nat_of_ascii a) in
  bool_decide (n = 32 ∨ 9 ≤ n ≤ 13).

Fixpoint skip_white_space (s : string) : string :=
  match s with
  | String a rest => if is_white_space a then skip_white_space rest else s
  | EmptyString => s
  end.

Definition digit_value (a : ascii) : option Z :=
  let n := Z.of_nat (Ascii.nat_of_ascii a) in
  if bool_decide (48 ≤ n ≤ 57)%Z then Some (n - 48)%Z
  else if bool_decide (97 ≤ n ≤ 122)%Z then Some (n - 87)%Z
  else if bool_decide (65 ≤ n ≤ 90)%Z then Some (n - 55)%Z
  else None.

(** The longest prefix of digits of the radix, read as an integer; [None]
    when there is no digit. *)
Fixpoint read_digits (radix : Z) (acc : option Z) (s : string) : option Z :=
  match s with
  | String a rest =>
      match digit_value a with
      | Some d =>
          if bool_decide (d < radix)%Z
          then read_digits radix (Some (default 0 acc * radix + d)%Z) rest
          else acc
      | None => acc
      end
  | EmptyString => acc
  end.

Definition strip_sign (s : string) : bool * string :=
  match s with
  | String "-" rest => (true, rest)
  | String "+" rest => (false, rest)
  | _ => (false, s)
  end.

Definition strip_hex_prefix (s : string) : Z * string :=
  match s with
  | String "0" (String "x" rest) | String "0" (String "X" rest) => (16, rest)
  | _ => (10, s)
  end%Z.

(** [parseInt(s)] with no radix; [None] is NaN. Exact on integers. *)
Definition parseInt (s : string) : option Z :=
  let '(negative, s1) := strip_sign (skip_white_space s) in
  let '(radix, s2) := strip_hex_prefix s1 in
  (λ n, if negative then (- n)%Z else n) <$> read_digits radix None s2.

(** [`${n}`] for the number [n - 1] of the handler: the decimal digits of
    an integer (below 10^21 in magnitude), and the name of NaN. *)
Definition template_of_number (n : option Z) : string :=
  match n with
  | Some z => pretty z
  | None => "NaN"
  end.

(** [!s] for a query parameter: absent, or the empty string. *)
Definition falsy (s : option string) : bool :=
  match s with
  | None | Some EmptyString => true
  | Some _ => false
  end.

End JsString.

Import JsString.

(** A [Date] is an instant in milliseconds since the epoch, or the Invalid
    Date ([None]). *)
Definition Date := option Z.

(** What the handlers take from their host: [new Date(string)], which
    ECMAScript fixes only for the ISO format; [setHours(23, 59, 59, 999)],
    which works in the time zone of the process; and what the driver does
    with an Invalid Date in a filter (it uses some instant, or throws). *)
Record host := {
  Date_parse : string → Date;
  setHours_23_59_59_999 : Z → Z;
  invalid_date_in_filter : string + Z
}.

Module IsoDate.

Definition days_from_civil (y m d : Z) : Z :=
  let y' := if bool_decide (m ≤ 2) then y - 1 else y in
  let era := y' `div` 400 in
  let yoe := y' - era * 400 in
  let mp := if bool_decide (m ≤ 2) then m + 9 else m - 3 in
  let doy := (153 * mp + 2) `div` 5 + d - 1 in
  let doe := yoe * 365 + yoe `div` 4 - yoe `div` 100 + doy in
  era * 146097 + doe - 719468.

Definition decimal (s : list ascii) : option Z :=
  foldl (λ acc a,
    n ← acc;
    d ← digit_value a;
    if bool_decide (d < 10) then Some (n * 10 + d) else None) (Some 0) s.

Definition ms_per_day : Z := 86400000.

Definition date_part (y1 y2 y3 y4 m1 m2 d1 d2 : ascii) : option Z :=
  y ← decimal [y1; y2; y3; y4];
  m ← decimal [m1; m2];
  d ← decimal [d1; d2];
  if bool_decide (1 ≤ m ≤ 12 ∧ 1 ≤ d ≤ 31)
  then Some (days_from_civil y m d * ms_per_day) else None.

Definition time_part (h1 h2 n1 n2 s1 s2 f1 f2 f3 : ascii) : option Z :=
  h ← decimal [h1; h2];
  n ← decimal [n1; n2];
  s ← decimal [s1; s2];
  f ← decimal [f1; f2; f3];
  if bool_decide (h ≤ 23 ∧ n ≤ 59 ∧ s ≤ 59)
  then Some (((h * 60 + n) * 60 + s) * 1000 + f) else None.

(** The two ISO shapes the handlers build, [YYYY-MM-DD] and
    [YYYY-MM-DDTHH:mm:ss.sssZ], both read in UTC. Every other string is
    taken as an Invalid Date, which is one admissible host. *)
Definition parse (s : string) : Date :=
  match String.list_ascii_of_string s with
  | [y1; y2; y3; y4; "-"; m1; m2; "-"; d1; d2]%char =>
      date_part y1 y2 y3 y4 m1 m2 d1 d2
  | [y1; y2; y3; y4; "-"; m1; m2; "-"; d1; d2; "T";
     h1; h2; ":"; n1; n2; ":"; s1; s2; "."; f1; f2; f3; "Z"]%char =>
      day ← date_part y1 y2 y3 y4 m1 m2 d1 d2;
      time ← time_part h1 h2 n1 n2 s1 s2 f1 f2 f3;
      Some (day + time)
  | _ => None
  end.

Definition end_of_day (t : Z) : Z := t - t `mod` ms_per_day + (ms_per_day - 1).

(** A host in the UTC time zone whose driver sends the epoch for an Invalid
    Date. *)
Definition utc : host :=
  {| Date_parse := parse;
     setHours_23_59_59_999 := end_of_day;
     invalid_date_in_filter := inr 0 |}.

End IsoDate.

(** ** Documents *)

Abbreviation ObjectId := N.

Module Item.
Record t := { product_id : ObjectId; name : string; total_price_ttc : Qc }.
End Item.

Module Order.
Record t := {
  _id : ObjectId;
  shop_id : ObjectId;
  buyer_id : ObjectId;
  created_at : Z;
  status : string;
  amounts_total : Qc;
  items : list Item.t
}.
End Order.

Module Product.
Record t := { category_id : option ObjectId }.
End Product.

Module CategoryProduct.
Record t := { name : option string }.
End CategoryProduct.

Module User.
Record t := { firstname : string; lastname : string; email : string }.
End User.

Module Shop.
Record t := { avg_rating : Qc; count_rating : nat }.
End Shop.

(** The collections the controller reads. [orders] is in scan order; the
    others are keyed by [_id]. *)
Record database := {
  orders : list Order.t;
  products : gmap N Product.t;
  categoryproducts : gmap N CategoryProduct.t;
  users : gmap N User.t;
  shops : gmap N Shop.t
}.

(** ** Aggregation stages *)

(** The choices MongoDB does not fix: in which order rows without a defined
    order come out. *)
Record engine := {
  arrange : ∀ A : Type, list A → list A;
  arrange_perm : ∀ (A : Type) (l : list A), arrange A l ≡ₚ l
}.

Arguments arrange _ {_} _.

Module Stage.

Section Stages.
Context (E : engine).

(** [$group] with [_id: key]: one row per key value among the input, in
    an order of the engine's choosing, holding the documents of the group
    in input order. The accumulators are applied to that list. *)
Definition group {A K : Type} `{EqDecision K} (key : A → K) (l : list A)
  : list (K * list A) :=
  arrange E ((λ k, (k, filter (λ x, key x = k) l)) <$> remove_dups (key <$> l)).

(** [$sort]: sorted for [R], rows that [R] ranks equally in an order of the
    engine's choosing. *)
Definition sort {A : Type} (R : relation A) `{∀ x y, Decision (R x y)}
  (l : list A) : list A :=
  merge_sort R (arrange E l).

(** [Model.distinct(field, filter)]: the values of the field, each once. *)
Definition distinct {A K : Type} `{EqDecision K} (key : A → K) (l : list A)
  : list K :=
  arrange E (remove_dups (key <$> l)).
End Stages.

(** [{ $sum: "$field" }] over the documents of a group; [{ $sum: 1 }] is
    their [length]. *)
Definition sum {A : Type} (f : A → Qc) (l : list A) : Qc :=
  foldr (λ x acc, f x + acc)%Qc 0%Qc l.

(** [{ $first: "$field" }], and [rows.length > 0 ? rows[0].field : d]. *)
Definition first {A B : Type} (f : A → B) (d : B) (l : list A) : B :=
  match l with
  | x :: _ => f x
  | [] => d
  end.

(** [$unwind: "$items"]: one row per element of the array, none for an
    empty array. *)
Definition unwind_items (l : list Order.t) : list (Order.t * Item.t) :=
  o ← l; (λ i, (o, i)) <$> Order.items o.

(** [$lookup] by [_id] followed by [$unwind] of the joined array: the row is
    kept with its match, and lost without one. *)
Definition lookup_unwind {A V : Type} (coll : gmap N V) (key : A → option N)
  (l : list A) : list (A * V) :=
  r ← l;
  match key r ≫= (coll !!.) with
  | Some v => [(r, v)]
  | None => []
  end.

(** The same with [preserveNullAndEmptyArrays: true]: the row is kept, with
    the joined field missing. *)
Definition lookup_unwind_preserve {A V : Type} (coll : gmap N V)
  (key : A → option N) (l : list A) : list (A * option V) :=
  (λ r, (r, key r ≫= (coll !!.))) <$> l.

End Stage.

(** ** Requests and responses *)

(** What a handler reads of the request: [req.user.shop_id], the shop the
    authentication layer linked to the caller ([None] when it is missing),
    and the three query parameters, each absent or a string. *)
Record request := {
  user_shop_id : option ObjectId;
  query_startDate : option string;
  query_endDate : option string;
  query_year : option string
}.

Module OrderSummary.
Record t := {
  totalOrders : nat; totalAmount : Qc;
  pendingOrders : nat; confirmedOrders : nat
}.
End OrderSummary.

Module Client.
Record t := {
  _id : ObjectId; orderCount : nat; totalAmount : Qc;
  firstname : string; lastname : string; email : string
}.
End Client.

Module TopClients.
Record t := { topByCount : list Client.t; topByAmount : list Client.t }.
End TopClients.

Module ProductStat.
Record t := {
  _id : ObjectId; productName : string; orderCount : nat; totalAmount : Qc
}.

(** [{ $sort: { totalAmount: -1 } }]. *)
Definition totalAmount_desc (a b : t) : Prop := (totalAmount b ≤ totalAmount a)%Qc.
#[global] Instance totalAmount_desc_dec a b : Decision (totalAmount_desc a b).
Proof. unfold totalAmount_desc. apply _. Defined.
End ProductStat.

Module CategoryStat.
Record t := {
  _id : option ObjectId; categoryName : string;
  orderCount : nat; totalAmount : Qc
}.

(** [{ $sort: { totalAmount: -1 } }]. *)
Definition totalAmount_desc (a b : t) : Prop := (totalAmount b ≤ totalAmount a)%Qc.
#[global] Instance totalAmount_desc_dec a b : Decision (totalAmount_desc a b).
Proof. unfold totalAmount_desc. apply _. Defined.
End CategoryStat.

Module GlobalStats.
Record t := {
  totalOrders : nat; ordersDiff : number;
  totalAmount : Qc; amountDiff : number;
  avgRating : Qc; countRating : nat;
  totalCustomers : nat; customersDiff : number
}.
End GlobalStats.

(** The row a [$group] by buyer yields, before the join with [users]. *)
Module ClientGroup.
Record t := { _id : ObjectId; orderCount : nat; totalAmount : Qc }.

(** [{ $sort: { orderCount: -1 } }] and [{ $sort: { totalAmount: -1 } }]. *)
Definition orderCount_desc (a b : t) : Prop := (orderCount b ≤ orderCount a)%nat.
Definition totalAmount_desc (a b : t) : Prop := (totalAmount b ≤ totalAmount a)%Qc.

#[global] Instance orderCount_desc_dec a b : Decision (orderCount_desc a b).
Proof. unfold orderCount_desc. apply _. Defined.
#[global] Instance totalAmount_desc_dec a b : Decision (totalAmount_desc a b).
Proof. unfold totalAmount_desc. apply _. Defined.
End ClientGroup.

Inductive body :=
  | Message (message : string)
  | ServerError (message error : string)
  | OrderSummaryBody (b : OrderSummary.t)
  | TopClientsBody (b : TopClients.t)
  | ProductStatsBody (b : list ProductStat.t)
  | CategoryStatsBody (b : list CategoryStat.t)
  | GlobalStatsBody (b : GlobalStats.t).

Record response := { status : nat; json : body }.

(** What a handler did: the store calls it issued, and its response. *)
Record outcome := { store_calls : list string; reply : response }.

(** A computation that returns or throws. *)
Inductive result (A : Type) :=
  | Ok (a : A)
  | Threw (message : string).

Arguments Ok {_} _.
Arguments Threw {_} _.

#[global] Instance result_bind : MBind result := λ A B f r,
  match r with
  | Ok a => f a
  | Threw m => Threw m
  end.

(** [return res.status(400).json({ message })], before any store call. *)
Definition reject (message : string) : outcome :=
  {| store_calls := []; reply := {| status := 400; json := Message message |} |}.

(** The [try] block from the store calls on, with its [catch]: what
    [Promise.all] was given has been issued when a call fails. *)
Definition respond (calls : list string) (r : result body) : outcome :=
  {| store_calls := calls;
     reply := match r with
              | Ok b => {| status := 200; json := b |}
              | Threw m => {| status := 500; json := ServerError "Server error" m |}
              end |}.

(** A [Date] as the driver puts it in a filter. *)
Definition filter_date (h : host) (d : Date) : result Z :=
  match d with
  | Some t => Ok t
  | None =>
      match invalid_date_in_filter h with
      | inl m => Threw m
      | inr t => Ok t
      end
  end.

(** ** The handlers *)

Module Filter.
(** [{ shop_id, created_at: { $gte: start, $lte: end } }]. *)
Definition in_window (shopId : ObjectId) (start end_ : Z) (o : Order.t) : Prop :=
  Order.shop_id o = shopId ∧ start ≤ Order.created_at o ≤ end_.

(** The same with [status: { $in: ['confirmed', 'shipped', 'delivered'] }]. *)
Definition validated_in_window (shopId : ObjectId) (start end_ : Z)
  (o : Order.t) : Prop :=
  Order.shop_id o = shopId ∧
  Order.status o ∈ ["confirmed"; "shipped"; "delivered"] ∧
  start ≤ Order.created_at o ≤ end_.

#[global] Instance in_window_dec s a b o : Decision (in_window s a b o).
Proof. unfold in_window. apply _. Defined.

#[global] Instance validated_in_window_dec s a b o :
  Decision (validated_in_window s a b o).
Proof. unfold validated_in_window. apply _. Defined.
End Filter.

Section Handlers.
Context (h : host) (E : engine) (db : database).

(** The window of the two date handlers: [start = new Date(startDate)],
    [end = new Date(endDate)] moved by [setHours(23, 59, 59, 999)] (which
    leaves an Invalid Date invalid), as they reach the filter. *)
Definition date_window (req : request) : result (Z * Z) :=
  let start := query_startDate req ≫= Date_parse h in
  let end_ := setHours_23_59_59_999 h <$> (query_endDate req ≫= Date_parse h) in
  a ← filter_date h start;
  b ← filter_date h end_;
  Ok (a, b).

(** The window of the three year handlers. *)
Definition year_window (year : string) : result (Z * Z) :=
  a ← filter_date h (Date_parse h (year +:+ "-01-01"));
  b ← filter_date h (Date_parse h (year +:+ "-12-31T23:59:59.999Z"));
  Ok (a, b).

(** *** 1. Order summary between two dates *)

(** [$match] then [$group] with [_id: null]: no row for no order, one row
    of totals otherwise. *)
Definition totals_query (shopId : ObjectId) (start end_ : Z)
  : list (nat * Qc) :=
  (λ g, (length g.2, Stage.sum Order.amounts_total g.2)) <$>
  Stage.group E (λ _ : Order.t, ())
    (filter (Filter.in_window shopId start end_) (orders db)).

Definition status_breakdown_query (shopId : ObjectId) (start end_ : Z)
  : list (string * nat) :=
  (λ g, (g.1, length g.2)) <$>
  Stage.group E Order.status
    (filter (Filter.in_window shopId start end_) (orders db)).

(** [statusBreakdown.forEach(s => { statusMap[s._id] = s.count; })]. *)
Definition status_map (statusBreakdown : list (string * nat)) : gmap string nat :=
  foldl (λ statusMap s, <[s.1 := s.2]> statusMap) ∅ statusBreakdown.

Definition getShopOrderSummary (req : request) : outcome :=
  match user_shop_id req with
  | None => reject "No shop linked to this account"
  | Some shopId =>
    if falsy (query_startDate req) || falsy (query_endDate req)
    then reject "startDate and endDate are required"
    else
      respond ["orders.aggregate"; "orders.aggregate"] (
        w ← date_window req;
        let summary := totals_query shopId w.1 w.2 in
        let statusMap := status_map (status_breakdown_query shopId w.1 w.2) in
        Ok (OrderSummaryBody {|
          OrderSummary.totalOrders := Stage.first fst 0%nat summary;
          OrderSummary.totalAmount := Stage.first snd 0%Qc summary;
          OrderSummary.pendingOrders := default 0%nat (statusMap !! "pending");
          OrderSummary.confirmedOrders := default 0%nat (statusMap !! "confirmed")
        |}))
  end.

(** *** 2. Top 5 clients between two dates *)

(** [$match] on validated orders, then [$group] by buyer. *)
Definition client_groups (shopId : ObjectId) (start end_ : Z)
  : list ClientGroup.t :=
  (λ g, {| ClientGroup._id := g.1;
           ClientGroup.orderCount := length g.2;
           ClientGroup.totalAmount := Stage.sum Order.amounts_total g.2 |}) <$>
  Stage.group E Order.buyer_id
    (filter (Filter.validated_in_window shopId start end_) (orders db)).

Definition project_client (r : ClientGroup.t * User.t) : Client.t :=
  {| Client._id := ClientGroup._id r.1;
     Client.orderCount := ClientGroup.orderCount r.1;
     Client.totalAmount := ClientGroup.totalAmount r.1;
     Client.firstname := User.firstname r.2;
     Client.lastname := User.lastname r.2;
     Client.email := User.email r.2 |}.

(** One of the two pipelines: [$sort], [$limit: 5], [$lookup] in [users],
    [$unwind: "$user"], [$project]. *)
Definition top_clients_query (R : relation ClientGroup.t)
  `{∀ x y, Decision (R x y)} (shopId : ObjectId) (start end_ : Z)
  : list Client.t :=
  project_client <$>
  Stage.lookup_unwind (users db) (λ r, Some (ClientGroup._id r))
    (take 5 (Stage.sort E R (client_groups shopId start end_))).

Definition getShopTopClients (req : request) : outcome :=
  match user_shop_id req with
  | None => reject "No shop linked to this account"
  | Some shopId =>
    if falsy (query_startDate req) || falsy (query_endDate req)
    then reject "startDate and endDate are required"
    else
      respond ["orders.aggregate"; "orders.aggregate"] (
        w ← date_window req;
        Ok (TopClientsBody {|
          TopClients.topByCount :=
            top_clients_query ClientGroup.orderCount_desc shopId w.1 w.2;
          TopClients.topByAmount :=
            top_clients_query ClientGroup.totalAmount_desc shopId w.1 w.2
        |}))
  end.

(** *** 3. Stats per product for a given year *)

Definition product_stats_query (shopId : ObjectId) (start end_ : Z)
  : list ProductStat.t :=
  Stage.sort E ProductStat.totalAmount_desc (
    (λ g, {| ProductStat._id := g.1;
             ProductStat.productName := Stage.first (Item.name ∘ snd) "" g.2;
             ProductStat.orderCount := length g.2;
             ProductStat.totalAmount :=
               Stage.sum (Item.total_price_ttc ∘ snd) g.2 |}) <$>
    Stage.group E (Item.product_id ∘ snd)
      (Stage.unwind_items
         (filter (Filter.in_window shopId start end_) (orders db)))).

Definition getShopProductStats (req : request) : outcome :=
  match user_shop_id req with
  | None => reject "No shop linked to this account"
  | Some shopId =>
    if falsy (query_year req) then reject "Year is required"
    else
      let year := default "" (query_year req) in
      respond ["orders.aggregate"] (
        w ← year_window year;
        Ok (ProductStatsBody (product_stats_query shopId w.1 w.2)))
  end.

(** *** 4. Stats per category for a given year *)

(** The rows before the [$group]: a line item, its product, and the
    category of the product when there is one. *)
Definition category_rows (shopId : ObjectId) (start end_ : Z)
  : list (Order.t * Item.t * Product.t * option CategoryProduct.t) :=
  Stage.lookup_unwind_preserve (categoryproducts db)
    (λ r, Product.category_id r.2)
    (Stage.lookup_unwind (products db) (λ r, Some (Item.product_id r.2))
       (Stage.unwind_items
          (filter (Filter.in_window shopId start end_) (orders db)))).

(** [{ $ifNull: ["$category.name", "Sans catégorie"] }]. *)
Definition category_name_or_default (c : option CategoryProduct.t) : string :=
  default "Sans catégorie" (c ≫= CategoryProduct.name).

Definition category_stats_query (shopId : ObjectId) (start end_ : Z)
  : list CategoryStat.t :=
  Stage.sort E CategoryStat.totalAmount_desc (
    (λ g, {| CategoryStat._id := g.1;
             CategoryStat.categoryName :=
               Stage.first (category_name_or_default ∘ snd) "" g.2;
             CategoryStat.orderCount := length g.2;
             CategoryStat.totalAmount :=
               Stage.sum (λ r, Item.total_price_ttc r.1.1.2) g.2 |}) <$>
    Stage.group E (λ r, Product.category_id r.1.2)
      (category_rows shopId start end_)).

Definition getShopCategoryStats (req : request) : outcome :=
  match user_shop_id req with
  | None => reject "No shop linked to this account"
  | Some shopId =>
    if falsy (query_year req) then reject "Year is required"
    else
      let year := default "" (query_year req) in
      respond ["orders.aggregate"] (
        w ← year_window year;
        Ok (CategoryStatsBody (category_stats_query shopId w.1 w.2)))
  end.

(** *** 5. Shop global stats for a given year *)

Definition distinct_buyers_query (shopId : ObjectId) (start end_ : Z)
  : list ObjectId :=
  Stage.distinct E Order.buyer_id
    (filter (Filter.in_window shopId start end_) (orders db)).

(** [parseInt(year) - 1], as the template literal prints it. *)
Definition prevYear (year : string) : string :=
  template_of_number ((λ n, n - 1) <$> parseInt year).

Definition getShopGlobalStats (req : request) : outcome :=
  match user_shop_id req with
  | None => reject "No shop linked to this account"
  | Some shopId =>
    if falsy (query_year req) then reject "Year is required"
    else
      let year := default "" (query_year req) in
      respond ["orders.aggregate"; "orders.aggregate";
               "orders.distinct"; "orders.distinct"; "shops.findById"] (
        w ← year_window year;
        wPrev ← year_window (prevYear year);
        let currentStats := totals_query shopId w.1 w.2 in
        let prevStats := totals_query shopId wPrev.1 wPrev.2 in
        let currentCustomers := distinct_buyers_query shopId w.1 w.2 in
        let prevCustomers := distinct_buyers_query shopId wPrev.1 wPrev.2 in
        let shopData := shops db !! shopId in
        let totalOrders := Stage.first fst 0%nat currentStats in
        let totalAmount := Stage.first snd 0%Qc currentStats in
        let totalOrdersPrev := Stage.first fst 0%nat prevStats in
        let totalAmountPrev := Stage.first snd 0%Qc prevStats in
        let totalCustomers := length currentCustomers in
        let totalCustomersPrev := length prevCustomers in
        Ok (GlobalStatsBody {|
          GlobalStats.totalOrders := totalOrders;
          GlobalStats.ordersDiff :=
            calculatePercentageDiff (of_nat totalOrders) (of_nat totalOrdersPrev);
          GlobalStats.totalAmount := totalAmount;
          GlobalStats.amountDiff :=
            calculatePercentageDiff (Fin totalAmount) (Fin totalAmountPrev);
          GlobalStats.avgRating := default 0%Qc (Shop.avg_rating <$> shopData);
          GlobalStats.countRating := default 0%nat (Shop.count_rating <$> shopData);
          GlobalStats.totalCustomers := totalCustomers;
          GlobalStats.customersDiff :=
            calculatePercentageDiff (of_nat totalCustomers) (of_nat totalCustomersPrev)
        |}))
  end.
End Handlers.

(** ** Two engines and sample data *)

(** The engine that leaves rows as they come, and the one that reverses
    them. *)
Definition in_order : engine :=
  {| arrange := λ _ l, l; arrange_perm := λ _ l, reflexivity l |}.

Definition reversed : engine :=
  {| arrange := λ _ l, reverse l; arrange_perm := λ _ l, reverse_Permutation l |}.

Definition amount (z : Z) : Qc := Q2Qc (inject_Z z).

(** A shop with four orders in 2024 and one in 2023: buyer 100 has a
    pending order, buyer 101 two confirmed ones (20 and 30), buyer 102 a
    delivered one (80). Product 1 has no category, product 2 a category
    that no longer exists, product 3 no product record, product 4 the
    category 51. *)
Module Sample.

Definition item (product : ObjectId) (name : string) (price : Z) : Item.t :=
  {| Item.product_id := product; Item.name := name;
     Item.total_price_ttc := amount price |}.

Definition order (id buyer : ObjectId) (at_ : Z) (status : string) (total : Z)
  (items : list Item.t) : Order.t :=
  {| Order._id := id; Order.shop_id := 7; Order.buyer_id := buyer;
     Order.created_at := at_; Order.status := status;
     Order.amounts_total := amount total; Order.items := items |}.

Definition db : database :=
  {| orders :=
       [ order 1 100 1704844800000 "pending" 10
           [item 1 "Tea" 4; item 2 "Cup" 6];
         order 2 101 1704931200000 "confirmed" 20 [item 1 "Green tea" 20];
         order 3 101 1705017600000 "confirmed" 30 [item 3 "Pot" 30];
         order 4 102 1706745600000 "delivered" 80 [item 4 "Kettle" 80];
         order 5 100 1685577600000 "delivered" 40 [item 1 "Tea" 40] ];
     products :=
       {[ 1%N := {| Product.category_id := None |};
          2%N := {| Product.category_id := Some 50%N |};
          4%N := {| Product.category_id := Some 51%N |} ]};
     categoryproducts :=
       {[ 51%N := {| CategoryProduct.name := Some "Kitchen" |} ]};
     users :=
       {[ 101%N := {| User.firstname := "Ada"; User.lastname := "A";
                      User.email := "ada@example.org" |};
          102%N := {| User.firstname := "Bob"; User.lastname := "B";
                      User.email := "bob@example.org" |} ]};
     shops :=
       {[ 7%N := {| Shop.avg_rating := Q2Qc (9 # 2); Shop.count_rating := 12 |} ]} |}.

(** January 2024, and the year 2024. *)
Definition january : request :=
  {| user_shop_id := Some 7%N;
     query_startDate := Some "2024-01-01"; query_endDate := Some "2024-01-31";
     query_year := Some "2024" |}.

Definition year_2024 : request :=
  {| user_shop_id := Some 7%N;
     query_startDate := Some "2024-01-01"; query_endDate := Some "2024-12-31";
     query_year := Some "2024" |}.

(** The year after the last order. *)
Definition year_2025 : request :=
  {| user_shop_id := Some 7%N;
     query_startDate := Some "2025-01-01"; query_endDate := Some "2025-12-31";
     query_year := Some "2025" |}.

End Sample.

(** ** The helper as the specification words it *)

(** 0 for [previous = 0] and [current = 0], 100 for [previous = 0] and
    [current > 0], and otherwise the rounded formula. *)
Definition percentage_diff_as_worded : Prop :=
  ∀ current previous : Binary64.double,
    let zero := Binary64.of_Z 0 in
    (Binary64.strict_eq previous zero = true →
     Binary64.strict_eq current zero = true →
     Binary64.calculatePercentageDiff current previous = Binary64.of_Z 0) ∧
    (Binary64.strict_eq previous zero = true →
     Binary64.gt current zero = true →
     Binary64.calculatePercentageDiff current previous = Binary64.of_Z 100) ∧
    (¬ (Binary64.strict_eq previous zero = true ∧
        (Binary64.strict_eq current zero = true ∨
         Binary64.gt current zero = true)) →
     Binary64.calculatePercentageDiff current previous =
     Binary64.spec_percentage_formula current previous).

(** ** Validation as the specification words it *)

(** A numeric year: a non-empty string of decimal digits. *)
Definition is_digit (a : ascii) : bool :=
  let n := Z.of_nat (Ascii.nat_of_ascii a) in bool_decide (48 ≤ n ≤ 57).

Definition numeric (s : string) : bool :=
  match String.list_ascii_of_string s with
  | [] => false
  | l => forallb is_digit l
  end.

Definition year_missing_or_non_numeric (req : request) : Prop :=
  match query_year req with
  | None => True
  | Some year => numeric year = false
  end.

(** A validation failure that attempted nothing: a 400 response with a
    message, and no store call. *)
Definition rejected (o : outcome) : Prop :=
  status (reply o) = 400%nat ∧
  (∃ message, json (reply o) = Message message ∧ message ≠ "") ∧
  store_calls o = [].

Definition year_validation_as_worded : Prop :=
  ∀ h E db req,
    year_missing_or_non_numeric req →
    rejected (getShopProductStats h E db req) ∧
    rejected (getShopCategoryStats h E db req) ∧
    rejected (getShopGlobalStats h E db req).

(** ** The empty window as the specification words it *)

(** The global report over a year without orders, with every count, amount
    and diff at zero. *)
Definition zero_global_stats (shop : option Shop.t) : GlobalStats.t :=
  {| GlobalStats.totalOrders := 0; GlobalStats.ordersDiff := of_Z 0;
     GlobalStats.totalAmount := 0%Qc; GlobalStats.amountDiff := of_Z 0;
     GlobalStats.avgRating := default 0%Qc (Shop.avg_rating <$> shop);
     GlobalStats.countRating := default 0%nat (Shop.count_rating <$> shop);
     GlobalStats.totalCustomers := 0; GlobalStats.customersDiff := of_Z 0 |}.

Definition empty_year_global_as_worded : Prop :=
  ∀ h E db req shopId year a b,
    user_shop_id req = Some shopId →
    query_year req = Some year → year ≠ "" →
    year_window h year = Ok (a, b) →
    filter (Filter.in_window shopId a b) (orders db) = [] →
    json (reply (getShopGlobalStats h E db req)) =
    GlobalStatsBody (zero_global_stats (shops db !! shopId)).

(** ** The order summary as the specification words it *)

(** The number of the matching orders, the sum of their totals, and the
    numbers of those pending and of those confirmed. *)
Definition summary_of (matching : list Order.t) : OrderSummary.t :=
  {| OrderSummary.totalOrders := length matching;
     OrderSummary.totalAmount := Stage.sum Order.amounts_total matching;
     OrderSummary.pendingOrders :=
       length (filter (λ o, Order.status o = "pending") matching);
     OrderSummary.confirmedOrders :=
       length (filter (λ o, Order.status o = "confirmed") matching) |}.

(** ** The top clients as the specification words them *)

(** The group of a buyer: its validated orders counted and summed. *)
Definition client_group_row (validated : list Order.t) (buyer : ObjectId)
  : ClientGroup.t :=
  let theirs := filter (λ o, Order.buyer_id o = buyer) validated in
  {| ClientGroup._id := buyer;
     ClientGroup.orderCount := length theirs;
     ClientGroup.totalAmount := Stage.sum Order.amounts_total theirs |}.

(** The row of a buyer: its validated orders counted and summed, with the
    profile of the buyer. *)
Definition client_row (validated : list Order.t) (buyer : ObjectId)
  (user : User.t) : Client.t :=
  let theirs := filter (λ o, Order.buyer_id o = buyer) validated in
  {| Client._id := buyer;
     Client.orderCount := length theirs;
     Client.totalAmount := Stage.sum Order.amounts_total theirs;
     Client.firstname := User.firstname user;
     Client.lastname := User.lastname user;
     Client.email := User.email user |}.

(** A view of the top clients ranked by [R]: at most five rows, one buyer
    each, in the order of [R]; every row is the row of a buyer of a
    validated order who has a user record; and a buyer with a user record
    who is left out ranks no higher than any row shown. *)
Definition ranked_clients (validated : list Order.t) (users : gmap N User.t)
  (R : relation Client.t) (view : list Client.t) : Prop :=
  (length view ≤ 5)%nat ∧
  NoDup (Client._id <$> view) ∧
  StronglySorted R view ∧
  (∀ c, c ∈ view →
     ∃ buyer user,
       buyer ∈ Order.buyer_id <$> validated ∧ users !! buyer = Some user ∧
       c = client_row validated buyer user) ∧
  (∀ buyer user,
     buyer ∈ Order.buyer_id <$> validated → users !! buyer = Some user →
     buyer ∉ Client._id <$> view →
     ∀ c, c ∈ view → R c (client_row validated buyer user)).

(** A ranking of the buyers by [R]: the group of every buyer of a
    validated order, once each, in the order of [R]. *)
Definition ranking_by (validated : list Order.t) (R : relation ClientGroup.t)
  (ranking : list ClientGroup.t) : Prop :=
  ranking ≡ₚ
    client_group_row validated <$> remove_dups (Order.buyer_id <$> validated) ∧
  StronglySorted R ranking.

(** The view read off a ranking: its first five groups, in their order,
    each with the profile of its buyer, and those whose buyer has no user
    record left out. *)
Definition first_five_joined (users : gmap N User.t)
  (ranking : list ClientGroup.t) : list Client.t :=
  omap (λ g, (λ user, project_client (g, user)) <$> users !! ClientGroup._id g)
    (take 5 ranking).

Definition by_orderCount (x y : Client.t) : Prop :=
  (Client.orderCount y ≤ Client.orderCount x)%nat.

Definition by_totalAmount (x y : Client.t) : Prop :=
  (Client.totalAmount y ≤ Client.totalAmount x)%Qc.

(** ** The product and category rows as the specification words them *)

(** The row of a product over the expanded line items: the name of the
    first line of the product, the number of its lines, and the sum of
    their prices. *)
Definition product_row (lines : list (Order.t * Item.t)) (product : ObjectId)
  : ProductStat.t :=
  let theirs := filter (λ l, Item.product_id l.2 = product) lines in
  {| ProductStat._id := product;
     ProductStat.productName := Stage.first (Item.name ∘ snd) "" theirs;
     ProductStat.orderCount := length theirs;
     ProductStat.totalAmount := Stage.sum (Item.total_price_ttc ∘ snd) theirs |}.

(** A category identifier that resolves to no category record: it is null,
    or no record has it. *)
Definition categoryless (db : database) (category : option ObjectId) : Prop :=
  category ≫= (categoryproducts db !!.) = None.

(** The row of a category identifier over the line items that have a
    product record. *)
Definition category_row (db : database)
  (rows : list (Order.t * Item.t * Product.t * option CategoryProduct.t))
  (category : option ObjectId) : CategoryStat.t :=
  let theirs := filter (λ r, Product.category_id r.1.2 = category) rows in
  {| CategoryStat._id := category;
     CategoryStat.categoryName :=
       category_name_or_default (category ≫= (categoryproducts db !!.));
     CategoryStat.orderCount := length theirs;
     CategoryStat.totalAmount :=
       Stage.sum (λ r, Item.total_price_ttc r.1.1.2) theirs |}.

(** All line items without a resolvable category in one row, as worded:
    two rows of the report whose category identifier resolves to no
    category are the same row. *)
Definition one_uncategorized_bucket_as_worded : Prop :=
  ∀ h E db req rows,
    json (reply (getShopCategoryStats h E db req)) = CategoryStatsBody rows →
    ∀ r1 r2, r1 ∈ rows → r2 ∈ rows →
      categoryless db (CategoryStat._id r1) →
      categoryless db (CategoryStat._id r2) →
      r1 = r2.

(** ** A third engine *)

(** An engine that moves the first row to the end. *)
Definition rotate_once {A : Type} (l : list A) : list A :=
  match l with
  | [] => []
  | x :: rest => rest ++ [x]
  end.

Lemma rotate_once_perm {A : Type} (l : list A) : rotate_once l ≡ₚ l.
Proof.
  destruct l as [|x rest]; [reflexivity|].
  symmetry. apply Permutation_cons_append.
Defined.

Definition rotated : engine :=
  {| arrange := @rotate_once; arrange_perm := @rotate_once_perm |}.

(** Five orders of one buyer in 2024, after a year without orders. *)
Module Repeat.

Definition db : database :=
  {| orders :=
       (λ n, Sample.order n 300 (1704844800000 + Z.of_N n) "confirmed" 10 [])
         <$> [1; 2; 3; 4; 5]%N;
     products := ∅; categoryproducts := ∅; users := ∅; shops := ∅ |}.

End Repeat.


(** ** Hosts away from UTC *)

Module Zone.

(** [setHours(23, 59, 59, 999)] on a host whose local time is [offset]
    milliseconds ahead of UTC (behind, when negative), without daylight
    saving: the instant is read as local time, moved to the last
    millisecond of its local day, and read back as UTC. *)
Definition end_of_local_day (offset t : Z) : Z :=
  let local := t + offset in
  local - local `mod` IsoDate.ms_per_day + (IsoDate.ms_per_day - 1) - offset.

Definition host_at (offset : Z) : host :=
  {| Date_parse := IsoDate.parse;
     setHours_23_59_59_999 := end_of_local_day offset;
     invalid_date_in_filter := invalid_date_in_filter IsoDate.utc |}.

End Zone.

(** ** The store as one shop sees it *)

(** Two stores that hold the same orders of the shop, in the same order,
    the same record of the shop, and the same products, categories and
    users. *)
Definition same_for_shop (shopId : ObjectId) (db db' : database) : Prop :=
  filter (λ o, Order.shop_id o = shopId) (orders db) =
    filter (λ o, Order.shop_id o = shopId) (orders db') ∧
  products db = products db' ∧
  categoryproducts db = categoryproducts db' ∧
  users db = users db' ∧
  shops db !! shopId = shops db' !! shopId.

(** ** A second shop *)

(** The sample store with a second shop: its order, between those of shop
    7, and its record. *)
Module OtherShop.

Definition order : Order.t :=
  {| Order._id := 9; Order.shop_id := 8; Order.buyer_id := 101;
     Order.created_at := 1704931200000; Order.status := "confirmed";
     Order.amounts_total := amount 500;
     Order.items := [Sample.item 1 "Tea" 500] |}.

Definition db : database :=
  {| orders := take 2 (orders Sample.db) ++ order :: drop 2 (orders Sample.db);
     products := products Sample.db;
     categoryproducts := categoryproducts Sample.db;
     users := users Sample.db;
     shops := <[8%N := {| Shop.avg_rating := 1%Qc; Shop.count_rating := 1 |}]>
                (shops Sample.db) |}.

End OtherShop.

(** ** The windows of a year and of the year before *)

(** On the UTC host, for the year [y] written in decimal: both windows
    resolve, the window of the year before ends one millisecond before the
    window of the year begins, and the window of the year begins at a
    midnight and lasts 365 or 366 days. *)
Definition year_windows_adjoin (y : Z) : bool :=
  match year_window IsoDate.utc (pretty y),
        year_window IsoDate.utc (prevYear (pretty y)) with
  | Ok w, Ok wPrev =>
      bool_decide
        (wPrev.2 + 1 = w.1 ∧ wPrev.1 ≤ wPrev.2 ∧
         w.1 `mod` IsoDate.ms_per_day = 0 ∧
         (w.2 - w.1 + 1 = 365 * IsoDate.ms_per_day ∨
          w.2 - w.1 + 1 = 366 * IsoDate.ms_per_day))
  | _, _ => false
  end.

(** Equations between computed responses: constructors are peeled off until
    the numbers, which are equal when their fractions are. *)
Ltac same_numbers :=
  repeat match goal with
         | |- @eq Qc _ _ => apply Qc_is_canon; reflexivity
         | |- _ = _ => reflexivity
         | |- _ = _ => progress f_equal
         end.

(** ** The two branches of the exact helper *)

Lemma diff_previous_zero (c : Qc) :
  calculatePercentageDiff (Fin c) (of_Z 0) =
  if bool_decide (0 < c)%Qc then of_Z 100 else of_Z 0.
Proof. reflexivity. Qed.

Lemma diff_previous_nonzero (c p : Qc) :
  p ≠ 0%Qc →
  calculatePercentageDiff (Fin c) (Fin p) =
  Fin (toFixed2 ((c - p) / p * Q2Qc 100)).
Proof.
  intros Hp. unfold calculatePercentageDiff, strict_eq, of_Z.
  rewrite bool_decide_false by done.
  unfold sub, div. rewrite bool_decide_false by done. reflexivity.
Qed.

(** ** The helper in double precision *)

Section Hundredths.

Local Open Scope Q_scope.

(** The hundredths [toFixed(2)] prints are the nearest to the double it is
    given: less than half a hundredth below it, and at most half a
    hundredth above. *)
Lemma hundredths_close (m : positive) (e : Z) :
  (0 <= Binary64.hundredths m e)%Z ∧
  - (1 # 200) < (Binary64.hundredths m e # 100) - Binary64.magnitude m e ∧
  (Binary64.hundredths m e # 100) - Binary64.magnitude m e <= 1 # 200.
Proof.
  unfold Binary64.hundredths, Binary64.magnitude.
  destruct e as [|e|k].
  - split; [lia|].
    unfold Qlt, Qle, Qminus, Qplus, Qopp, inject_Z. cbn. lia.
  - assert (0 < 2 ^ Z.pos e)%Z as Hpow by (apply Z.pow_pos_nonneg; lia).
    split; [nia|].
    unfold Qlt, Qle, Qminus, Qplus, Qopp, inject_Z. cbn [Qnum Qden].
    set (M := (Z.pos m * 2 ^ Z.pos e)%Z). lia.
  - assert (Z.pos (2 ^ k) = 2 ^ Z.pos k)%Z as HP by apply Pos2Z.inj_pow.
    assert (0 < 2 ^ Z.pos k)%Z as Hpow by (apply Z.pow_pos_nonneg; lia).
    rewrite Z.pow_add_r, Z.pow_1_r by lia.
    set (P := (2 ^ Z.pos k)%Z) in *.
    pose proof (Z.div_mod (200 * Z.pos m + P) (P * 2) ltac:(lia)) as Hdm.
    pose proof (Z.mod_pos_bound (200 * Z.pos m + P) (P * 2) ltac:(lia)) as Hr.
    set (n := ((200 * Z.pos m + P) `div` (P * 2))%Z) in *.
    split; [apply Z.div_pos; lia|].
    unfold Qlt, Qle, Qminus, Qplus, Qopp. cbn [Qnum Qden].
    rewrite !Pos2Z.inj_mul, HP. fold P. nia.
Qed.

End Hundredths.

Lemma binary64_previous_zero (current previous : Binary64.double) :
  Binary64.strict_eq previous (Binary64.of_Z 0) = true →
  Binary64.calculatePercentageDiff current previous =
  if Binary64.gt current (Binary64.of_Z 0)
  then Binary64.of_Z 100 else Binary64.of_Z 0.
Proof. unfold Binary64.calculatePercentageDiff. by intros ->. Qed.

Lemma binary64_previous_nonzero (current previous : Binary64.double) :
  Binary64.strict_eq previous (Binary64.of_Z 0) = false →
  Binary64.calculatePercentageDiff current previous =
  Binary64.spec_percentage_formula current previous.
Proof. unfold Binary64.calculatePercentageDiff. by intros ->. Qed.

(** What [previous === 0] and [current > 0] test: either zero is 0, NaN is
    neither 0 nor above it, and above 0 are the positive finite numbers and
    the positive infinity. *)
Lemma binary64_comparisons (x : Binary64.double) :
  (Binary64.strict_eq x (Binary64.of_Z 0) = true ↔
   ∃ s, x = SpecFloat.S754_zero s) ∧
  (Binary64.gt x (Binary64.of_Z 0) = true ↔
   x = SpecFloat.S754_infinity false ∨ ∃ m e, x = SpecFloat.S754_finite false m e).
Proof.
  split.
  - destruct x as [s|s| |s m e]; cbn.
    + split; [by exists s|done].
    + split; [by destruct s|by intros [? ?]].
    + split; [done|by intros [? ?]].
    + split; [by destruct s|by intros [? ?]].
  - destruct x as [s|s| |s m e]; cbn.
    + split; [done|]. by intros [?|(? & ? & ?)].
    + destruct s; cbn; split; try done; [|by left].
      by intros [?|(? & ? & ?)].
    + split; [done|]. by intros [?|(? & ? & ?)].
    + destruct s; cbn; split; try done.
      * by intros [?|(? & ? & [=])].
      * intros _. right. by exists m, e.
Qed.

(** ** C1: the percentage helper *)

(** With a previous value of 0 and a negative current value the helper
    returns 0, where the formula divides by zero. *)
Lemma percentage_diff_negative_over_zero :
  Binary64.calculatePercentageDiff (Binary64.of_Z (-5)) (Binary64.of_Z 0) =
    Binary64.of_Z 0 ∧
  Binary64.spec_percentage_formula (Binary64.of_Z (-5)) (Binary64.of_Z 0) =
    SpecFloat.S754_infinity true ∧
  ¬ percentage_diff_as_worded.
Proof.
  split; [reflexivity|]. split; [reflexivity|].
  intros Hclaim.
  destruct (Hclaim (Binary64.of_Z (-5)) (Binary64.of_Z 0)) as (_ & _ & H).
  assert (Binary64.calculatePercentageDiff (Binary64.of_Z (-5)) (Binary64.of_Z 0) =
          Binary64.spec_percentage_formula (Binary64.of_Z (-5)) (Binary64.of_Z 0))
    as Heq.
  { apply H. intros [_ [Hz|Hpos]]; [discriminate Hz|discriminate Hpos]. }
  vm_compute in Heq. discriminate Heq.
Qed.

(** C1 (amended). With a previous value of 0 the helper returns 100 for a
    current value above 0 and 0 for every other one. With any other
    previous value it returns what [parseFloat] reads of the two decimals
    [toFixed] prints for [(current - previous) / previous * 100], each
    operation rounded to a double: for a result [x] below 10^21 in
    magnitude the double nearest to [n / 100], with the sign of [x], where
    [n] is the whole number of hundredths nearest to the magnitude of [x],
    the larger one of two equally near; for 0, 0; and [x] itself when it is
    larger, infinite or NaN. 150 against 100 gives 50, and 50 against 100
    gives -50. *)
Theorem percentage_diff_cases (current previous : Binary64.double) :
  let zero := Binary64.of_Z 0 in
  (Binary64.strict_eq previous zero = true →
   Binary64.gt current zero = false →
   Binary64.calculatePercentageDiff current previous = zero) ∧
  (Binary64.strict_eq previous zero = true →
   Binary64.gt current zero = true →
   Binary64.calculatePercentageDiff current previous = Binary64.of_Z 100) ∧
  (Binary64.strict_eq previous zero = false →
   let x := Binary64.mul (Binary64.div (Binary64.sub current previous) previous)
              (Binary64.of_Z 100) in
   Binary64.calculatePercentageDiff current previous =
     Binary64.spec_percentage_formula current previous ∧
   match x with
   | SpecFloat.S754_finite s m e =>
       if Binary64.at_least_1e21 m e
       then Binary64.calculatePercentageDiff current previous = x
       else ∃ n : Z,
         Binary64.calculatePercentageDiff current previous =
           Binary64.nearest s n 100 ∧
         0 ≤ n ∧
         (- (1 # 200) < (n # 100) - Binary64.magnitude m e)%Q ∧
         ((n # 100) - Binary64.magnitude m e <= 1 # 200)%Q
   | SpecFloat.S754_zero _ =>
       Binary64.calculatePercentageDiff current previous = zero
   | _ => Binary64.calculatePercentageDiff current previous = x
   end) ∧
  Binary64.calculatePercentageDiff (Binary64.of_Z 150) (Binary64.of_Z 100) =
    Binary64.of_Z 50 ∧
  Binary64.calculatePercentageDiff (Binary64.of_Z 50) (Binary64.of_Z 100) =
    Binary64.of_Z (-50).
Proof.
  intros zero. subst zero. split; [|split; [|split; [|split]]].
  - intros Hp Hc. by rewrite binary64_previous_zero, Hc.
  - intros Hp Hc. by rewrite binary64_previous_zero, Hc.
  - intros Hp x. split; [by apply binary64_previous_nonzero|].
    rewrite binary64_previous_nonzero by done.
    unfold Binary64.spec_percentage_formula. fold x.
    destruct x as [s|s| |s m e]; try reflexivity.
    unfold Binary64.toFixed2.
    destruct (Binary64.at_least_1e21 m e); [reflexivity|].
    exists (Binary64.hundredths m e). split; [reflexivity|].
    apply hundredths_close.
  - reflexivity.
  - reflexivity.
Qed.

Lemma percentage_diff_cases_witness :
  Binary64.calculatePercentageDiff (Binary64.of_Z (-5)) (Binary64.of_Z 0) =
    Binary64.of_Z 0 ∧
  Binary64.calculatePercentageDiff (Binary64.of_Z 5) (Binary64.of_Z 0) =
    Binary64.of_Z 100 ∧
  ∃ n : Z,
    Binary64.calculatePercentageDiff (Binary64.of_Z 183) (Binary64.of_Z 160) =
      Binary64.nearest false n 100 ∧
    0 ≤ n ∧
    (- (1 # 200) < (n # 100) - Binary64.magnitude 8092405580431359 (-49))%Q ∧
    ((n # 100) - Binary64.magnitude 8092405580431359 (-49) <= 1 # 200)%Q.
Proof.
  split; [|split].
  - exact (proj1 (percentage_diff_cases (Binary64.of_Z (-5)) (Binary64.of_Z 0))
             eq_refl eq_refl).
  - exact (proj1 (proj2
             (percentage_diff_cases (Binary64.of_Z 5) (Binary64.of_Z 0)))
             eq_refl eq_refl).
  - pose proof (proj1 (proj2 (proj2
      (percentage_diff_cases (Binary64.of_Z 183) (Binary64.of_Z 160))))) as H.
    cbv zeta in H. destruct (H eq_refl) as [_ Hx]. clear H.
    replace (Binary64.mul _ _)
      with (SpecFloat.S754_finite false 8092405580431359 (-49)) in Hx
      by (vm_compute; reflexivity).
    exact Hx.
Defined.

(** 183 against 160 is 14.375 exactly; the doubles give a little less,
    which prints as 14.37 and reads back as the quotient of 1437 by 100,
    where the exact helper has 14.38. 801 against 800 is 0.125 in doubles
    too, half way between two hundredths, and prints as 0.13. An overflow
    gives an infinity, and a NaN gives NaN. *)
Example percentage_diff_in_doubles :
  Binary64.calculatePercentageDiff (Binary64.of_Z 183) (Binary64.of_Z 160) =
    Binary64.nearest false 1437 100 ∧
  Binary64.nearest false 1437 100 =
    Binary64.div (Binary64.of_Z 1437) (Binary64.of_Z 100) ∧
  calculatePercentageDiff (of_Z 183) (of_Z 160) = Fin (Q2Qc (1438 # 100)) ∧
  Binary64.calculatePercentageDiff (Binary64.of_Z 801) (Binary64.of_Z 800) =
    Binary64.nearest false 13 100 ∧
  Binary64.calculatePercentageDiff
    (Binary64.of_Z (2 ^ 1023)) (Binary64.of_Z (- 2 ^ 1023)) =
    SpecFloat.S754_infinity true ∧
  Binary64.calculatePercentageDiff (Binary64.of_Z 1) SpecFloat.S754_nan =
    SpecFloat.S754_nan.
Proof.
  split; [by vm_compute|]. split; [by vm_compute|].
  split; [vm_compute; f_equal; by apply Qc_is_canon|].
  split; [by vm_compute|]. split; by vm_compute.
Qed.

(** ** Stage lemmas *)

Section StageFacts.
Context (E : engine).

Lemma arrange_length {A} (l : list A) : length (arrange E l) = length l.
Proof. by rewrite (arrange_perm E). Qed.

Lemma arrange_nil {A} : arrange E (@nil A) = [].
Proof. apply Permutation_nil_r, (arrange_perm E). Qed.

Lemma arrange_singleton {A} (x : A) : arrange E [x] = [x].
Proof. apply Permutation_singleton_r, (arrange_perm E). Qed.

Section Group.
Context {A K : Type} `{EqDecision K} (key : A → K).

Lemma group_perm (l : list A) :
  Stage.group E key l ≡ₚ
  (λ k, (k, filter (λ x, key x = k) l)) <$> remove_dups (key <$> l).
Proof. apply (arrange_perm E). Qed.

Lemma elem_of_group (l : list A) k g :
  (k, g) ∈ Stage.group E key l ↔
  k ∈ key <$> l ∧ g = filter (λ x, key x = k) l.
Proof.
  rewrite group_perm, list_elem_of_fmap. split.
  - intros (k' & [= -> ->] & Hk). by rewrite elem_of_remove_dups in Hk.
  - intros [Hk ->]. exists k. by rewrite elem_of_remove_dups.
Qed.

Lemma group_keys_NoDup (l : list A) : NoDup ((Stage.group E key l).*1).
Proof.
  rewrite group_perm, <- list_fmap_compose.
  generalize (NoDup_remove_dups (key <$> l)).
  generalize (remove_dups (key <$> l)). intros ks Hks.
  replace (fst ∘ (λ k, (k, filter (λ x, key x = k) l)) <$> ks) with ks; [done|].
  induction ks as [|k ks IH]; [done|]. cbn. f_equal. apply IH.
  by apply NoDup_cons in Hks as [_ ?].
Qed.

Lemma group_nil : Stage.group E key [] = [].
Proof. apply arrange_nil. Qed.
End Group.

Lemma filter_all {A} (P : A → Prop) `{∀ x, Decision (P x)} (l : list A) :
  (∀ x, x ∈ l → P x) → filter P l = l.
Proof.
  induction l as [|x l IH]; intros HP; [done|].
  rewrite filter_cons_True by (apply HP; left).
  f_equal. apply IH. intros y Hy. apply HP. by right.
Qed.

Lemma filter_none {A} (P : A → Prop) `{∀ x, Decision (P x)} (l : list A) :
  (∀ x, x ∈ l → ¬ P x) → filter P l = [].
Proof.
  induction l as [|x l IH]; intros HP; [done|].
  rewrite filter_cons_False by (apply HP; left).
  apply IH. intros y Hy. apply HP. by right.
Qed.

Lemma group_unit {A} (l : list A) :
  Stage.group E (λ _ : A, ()) l = match l with [] => [] | _ => [((), l)] end.
Proof.
  destruct l as [|x l]; [apply group_nil|].
  unfold Stage.group.
  assert (remove_dups ((λ _ : A, ()) <$> x :: l) = [()]) as ->.
  { pose proof (NoDup_remove_dups ((λ _ : A, ()) <$> x :: l)) as Hnd.
    pose proof (proj2 (elem_of_remove_dups ((λ _ : A, ()) <$> x :: l) ())) as Hin.
    destruct (remove_dups _) as [|[] [|[] r]]; [|done|].
    - exfalso. eapply not_elem_of_nil, Hin. left.
    - exfalso. apply NoDup_cons in Hnd as [Hnd _]. apply Hnd. left. }
  cbn [fmap list_fmap]. rewrite arrange_singleton. do 2 f_equal.
  by apply filter_all.
Qed.

(** *** Sorting *)

Section Sort.
Context {A : Type} (R : relation A) `{∀ x y, Decision (R x y)}.

Lemma sort_perm (l : list A) : Stage.sort E R l ≡ₚ l.
Proof.
  unfold Stage.sort. by rewrite merge_sort_Permutation, (arrange_perm E).
Qed.

Lemma sort_elem_of (l : list A) x : x ∈ Stage.sort E R l ↔ x ∈ l.
Proof. by rewrite sort_perm. Qed.

Lemma sort_sorted `{!Total R, !Transitive R} (l : list A) :
  StronglySorted R (Stage.sort E R l).
Proof. apply StronglySorted_merge_sort; apply _. Qed.

Lemma sort_nil : Stage.sort E R [] = [].
Proof. apply Permutation_nil_r, sort_perm. Qed.
End Sort.

Lemma distinct_length {A K} `{EqDecision K} (key : A → K) (l : list A) :
  length (Stage.distinct E key l) = length (remove_dups (key <$> l)).
Proof. apply arrange_length. Qed.
End StageFacts.

(** ** Order summary *)

Section OrderSummaryFacts.
Context (h : host) (E : engine) (db : database).

Lemma totals_query_eq shopId a b :
  totals_query E db shopId a b =
  match filter (Filter.in_window shopId a b) (orders db) with
  | [] => []
  | l => [(length l, Stage.sum Order.amounts_total l)]
  end.
Proof.
  unfold totals_query. rewrite group_unit.
  by destruct (filter _ _).
Qed.

Lemma totals_first_count shopId a b :
  Stage.first fst 0%nat (totals_query E db shopId a b) =
  length (filter (Filter.in_window shopId a b) (orders db)).
Proof. rewrite totals_query_eq. by destruct (filter _ _). Qed.

Lemma totals_first_amount shopId a b :
  Stage.first snd 0%Qc (totals_query E db shopId a b) =
  Stage.sum Order.amounts_total (filter (Filter.in_window shopId a b) (orders db)).
Proof. rewrite totals_query_eq. by destruct (filter _ _). Qed.

Lemma status_map_acc (l : list (string * nat)) (m : gmap string nat) :
  NoDup l.*1 →
  foldl (λ statusMap s, <[s.1 := s.2]> statusMap) m l = list_to_map l ∪ m.
Proof.
  revert m. induction l as [|[k v] l IH]; intros m Hnd; cbn.
  - by rewrite (left_id_L ∅ (∪)).
  - cbn in Hnd. apply NoDup_cons in Hnd as [Hk Hnd].
    rewrite IH by done. rewrite <- insert_union_l.
    by rewrite insert_union_r by by apply not_elem_of_list_to_map_1.
Qed.

Lemma status_map_lookup (l : list (string * nat)) k v :
  NoDup l.*1 → status_map l !! k = Some v ↔ (k, v) ∈ l.
Proof.
  intros Hnd. unfold status_map. rewrite status_map_acc by done.
  rewrite (right_id_L ∅ (∪)). symmetry. by apply elem_of_list_to_map.
Qed.

Lemma status_breakdown_NoDup shopId a b :
  NoDup (status_breakdown_query E db shopId a b).*1.
Proof.
  unfold status_breakdown_query. rewrite <- list_fmap_compose.
  apply (group_keys_NoDup E Order.status).
Qed.

Lemma elem_of_status_breakdown shopId a b s n :
  (s, n) ∈ status_breakdown_query E db shopId a b ↔
  s ∈ Order.status <$> filter (Filter.in_window shopId a b) (orders db) ∧
  n = length (filter (λ o, Order.status o = s)
                (filter (Filter.in_window shopId a b) (orders db))).
Proof.
  unfold status_breakdown_query. rewrite list_elem_of_fmap. split.
  - intros ([k g] & [= -> ->] & Hg). cbn.
    apply elem_of_group in Hg as [? ->]. done.
  - intros [Hs ->]. eexists (s, _). split; [done|].
    by apply elem_of_group.
Qed.

(** The count the handler reads for a status is the number of matching
    orders with that status, whichever way the breakdown rows come. *)
Lemma status_count shopId a b s :
  default 0%nat (status_map (status_breakdown_query E db shopId a b) !! s) =
  length (filter (λ o, Order.status o = s)
            (filter (Filter.in_window shopId a b) (orders db))).
Proof.
  destruct (status_map _ !! s) as [n|] eqn:Hs; cbn.
  - apply status_map_lookup in Hs; [|apply status_breakdown_NoDup].
    by apply elem_of_status_breakdown in Hs as [_ ->].
  - symmetry. apply length_zero_iff_nil, filter_none.
    intros o Ho Hst.
    assert (is_Some (status_map (status_breakdown_query E db shopId a b) !! s))
      as [n Hn]; [|congruence].
    eexists. apply status_map_lookup; [apply status_breakdown_NoDup|].
    apply elem_of_status_breakdown. split; [|done].
    apply list_elem_of_fmap. by exists o.
Qed.
End OrderSummaryFacts.

Lemma sum_fmap {A} (f : A → Qc) (l : list A) :
  Stage.sum f l = Stage.sum id (f <$> l).
Proof.
  unfold Stage.sum. induction l as [|x l IH]; [done|]. cbn. by rewrite IH.
Qed.

Lemma status_filter_fmap (s : string) (l : list Order.t) :
  length (filter (λ o, Order.status o = s) l) =
  length (filter (λ t, t = s) (Order.status <$> l)).
Proof.
  induction l as [|x l IH]; [done|]. cbn [fmap list_fmap].
  rewrite !filter_cons. destruct (decide (Order.status x = s)); cbn; by rewrite IH.
Qed.

Lemma order_summary_reply h E db req shopId a b :
  user_shop_id req = Some shopId →
  falsy (query_startDate req) = false →
  falsy (query_endDate req) = false →
  date_window h req = Ok (a, b) →
  reply (getShopOrderSummary h E db req) =
  {| status := 200;
     json := OrderSummaryBody
       (summary_of (filter (Filter.in_window shopId a b) (orders db))) |}.
Proof.
  intros Hshop Hs He Hw. unfold getShopOrderSummary.
  rewrite Hshop, Hs, He, Hw. cbn.
  by rewrite totals_first_count, totals_first_amount, !status_count.
Qed.

(** C5. For every store content, the order summary over the orders of the
    shop created in the resolved range reports their number, the sum of
    their [amounts.total], and the numbers of those with status pending and
    confirmed; three orders with statuses pending, confirmed, confirmed and
    amounts 10, 20, 30 give 3, 60, 1 and 2. *)
Theorem order_summary_counts_and_sums h E db req shopId a b :
  user_shop_id req = Some shopId →
  falsy (query_startDate req) = false →
  falsy (query_endDate req) = false →
  date_window h req = Ok (a, b) →
  let matching := filter (Filter.in_window shopId a b) (orders db) in
  reply (getShopOrderSummary h E db req) =
    {| status := 200;
       json := OrderSummaryBody
         {| OrderSummary.totalOrders := length matching;
            OrderSummary.totalAmount := Stage.sum Order.amounts_total matching;
            OrderSummary.pendingOrders :=
              length (filter (λ o, Order.status o = "pending") matching);
            OrderSummary.confirmedOrders :=
              length (filter (λ o, Order.status o = "confirmed") matching) |} |} ∧
  (Order.status <$> matching = ["pending"; "confirmed"; "confirmed"] →
   Order.amounts_total <$> matching = [amount 10; amount 20; amount 30] →
   json (reply (getShopOrderSummary h E db req)) =
     OrderSummaryBody
       {| OrderSummary.totalOrders := 3;
          OrderSummary.totalAmount := amount 60;
          OrderSummary.pendingOrders := 1;
          OrderSummary.confirmedOrders := 2 |}).
Proof.
  intros Hshop Hs He Hw matching.
  rewrite (order_summary_reply h E db req shopId a b) by done.
  split; [done|]. intros Hst Ham. cbn [json]. f_equal.
  unfold summary_of. fold matching.
  rewrite sum_fmap, Ham.
  rewrite !status_filter_fmap, Hst.
  replace (length matching) with (length (Order.status <$> matching))
    by apply length_fmap.
  rewrite Hst. cbn. f_equal; by apply Qc_is_canon.
Qed.

Lemma order_summary_counts_and_sums_witness :
  json (reply (getShopOrderSummary IsoDate.utc in_order Sample.db Sample.january)) =
  OrderSummaryBody
    {| OrderSummary.totalOrders := 3;
       OrderSummary.totalAmount := amount 60;
       OrderSummary.pendingOrders := 1;
       OrderSummary.confirmedOrders := 2 |}.
Proof.
  refine (proj2 (order_summary_counts_and_sums IsoDate.utc in_order Sample.db
            Sample.january 7%N 1704067200000 1706745599999 _ _ _ _) _ _);
    vm_compute; reflexivity.
Defined.

(** ** C3: validation of the year *)

Lemma respond_status calls r :
  status (reply (respond calls r)) = 200%nat ∨
  status (reply (respond calls r)) = 500%nat.
Proof. destruct r; cbn; auto. Qed.

(** Past the two guards a handler answers 200 or 500, and has called the
    store. *)
Lemma year_present_not_rejected h E db req shopId year :
  user_shop_id req = Some shopId →
  query_year req = Some year → year ≠ "" →
  status (reply (getShopProductStats h E db req)) ≠ 400%nat ∧
  store_calls (getShopProductStats h E db req) ≠ [] ∧
  status (reply (getShopCategoryStats h E db req)) ≠ 400%nat ∧
  store_calls (getShopCategoryStats h E db req) ≠ [] ∧
  status (reply (getShopGlobalStats h E db req)) ≠ 400%nat ∧
  store_calls (getShopGlobalStats h E db req) ≠ [].
Proof.
  intros Hshop Hyear Hne.
  unfold getShopProductStats, getShopCategoryStats, getShopGlobalStats.
  rewrite Hshop, Hyear. destruct year as [|c year]; [done|]. cbn [falsy].
  repeat split; try done;
    match goal with
    | |- status (reply (respond ?c ?r)) ≠ _ =>
        destruct (respond_status c r) as [-> | ->]; lia
    end.
Qed.

(** A year that is present and not numeric passes validation: the request
    with the year [abc] reaches the store and is answered 200 or 500. *)
Lemma non_numeric_year_not_rejected :
  let req := {| user_shop_id := Some 7%N; query_startDate := None;
                query_endDate := None; query_year := Some "abc" |} in
  year_missing_or_non_numeric req ∧
  (∀ h E db,
     status (reply (getShopProductStats h E db req)) ≠ 400%nat ∧
     store_calls (getShopProductStats h E db req) ≠ [] ∧
     status (reply (getShopCategoryStats h E db req)) ≠ 400%nat ∧
     store_calls (getShopCategoryStats h E db req) ≠ [] ∧
     status (reply (getShopGlobalStats h E db req)) ≠ 400%nat ∧
     store_calls (getShopGlobalStats h E db req) ≠ []) ∧
  ¬ year_validation_as_worded.
Proof.
  intros req. split; [reflexivity|]. split.
  - intros h E db. by apply (year_present_not_rejected h E db req 7%N "abc").
  - intros Hclaim.
    destruct (Hclaim IsoDate.utc in_order Sample.db req) as [[H _] _];
      [reflexivity|].
    vm_compute in H. discriminate H.
Qed.

(** C3 (amended). A request without a year (absent or empty) is refused by
    the product, category and global handlers with a 400 response that
    carries a message, before any store call. *)
Theorem missing_year_rejected h E db req :
  falsy (query_year req) = true →
  let message :=
    match user_shop_id req with
    | Some _ => "Year is required"
    | None => "No shop linked to this account"
    end in
  getShopProductStats h E db req = reject message ∧
  getShopCategoryStats h E db req = reject message ∧
  getShopGlobalStats h E db req = reject message ∧
  rejected (reject message).
Proof.
  intros Hy.
  unfold getShopProductStats, getShopCategoryStats, getShopGlobalStats.
  rewrite Hy. destruct (user_shop_id req); cbn; repeat split; eauto.
Qed.

Lemma missing_year_rejected_witness :
  let req := {| user_shop_id := Some 7%N; query_startDate := None;
                query_endDate := None; query_year := None |} in
  getShopProductStats IsoDate.utc in_order Sample.db req = reject "Year is required" ∧
  getShopCategoryStats IsoDate.utc in_order Sample.db req = reject "Year is required" ∧
  getShopGlobalStats IsoDate.utc in_order Sample.db req = reject "Year is required" ∧
  rejected (reject "Year is required").
Proof.
  intros req.
  apply (missing_year_rejected IsoDate.utc in_order Sample.db req).
  reflexivity.
Defined.

(** ** C8: windows without orders *)

Section EmptyWindow.
Context (h : host) (E : engine) (db : database).

Lemma validated_subset shopId a b :
  filter (Filter.in_window shopId a b) (orders db) = [] →
  filter (Filter.validated_in_window shopId a b) (orders db) = [].
Proof.
  intros Hnil. apply filter_none. intros o Ho (Hs & _ & Ht).
  eapply (filter_nil_not_elem_of _ _ o Hnil); [|done]. by split.
Qed.

Lemma top_clients_empty R `{∀ x y, Decision (R x y)} shopId a b :
  filter (Filter.in_window shopId a b) (orders db) = [] →
  top_clients_query E db R shopId a b = [].
Proof.
  intros Hnil. unfold top_clients_query, client_groups.
  rewrite validated_subset by done.
  rewrite group_nil. cbn [fmap list_fmap]. by rewrite sort_nil.
Qed.

Lemma product_stats_empty shopId a b :
  filter (Filter.in_window shopId a b) (orders db) = [] →
  product_stats_query E db shopId a b = [].
Proof.
  intros Hnil. unfold product_stats_query. rewrite Hnil.
  cbn [Stage.unwind_items mbind list_bind]. rewrite group_nil.
  cbn [fmap list_fmap]. by rewrite sort_nil.
Qed.

Lemma category_stats_empty shopId a b :
  filter (Filter.in_window shopId a b) (orders db) = [] →
  category_stats_query E db shopId a b = [].
Proof.
  intros Hnil. unfold category_stats_query, category_rows. rewrite Hnil.
  cbn [Stage.unwind_items Stage.lookup_unwind Stage.lookup_unwind_preserve
       mbind list_bind fmap list_fmap].
  rewrite group_nil. cbn [fmap list_fmap]. by rewrite sort_nil.
Qed.

Lemma distinct_buyers_empty shopId a b :
  filter (Filter.in_window shopId a b) (orders db) = [] →
  distinct_buyers_query E db shopId a b = [].
Proof.
  intros Hnil. unfold distinct_buyers_query, Stage.distinct. rewrite Hnil.
  apply arrange_nil.
Qed.
End EmptyWindow.

Lemma Q2Qc_nonzero (x : Q) : ¬ (x == 0)%Q → Q2Qc x ≠ 0%Qc.
Proof.
  intros Hx Heq. apply Hx. apply (f_equal Qcanon.this) in Heq.
  cbn in Heq. rewrite <- (Qred_correct x), Heq. done.
Qed.

(** Nothing against a previous value: 0 when that is 0 too, and a full
    loss otherwise. *)
Lemma diff_current_zero (p : Qc) :
  calculatePercentageDiff (of_Z 0) (Fin p) =
  if decide (p = 0%Qc) then of_Z 0 else of_Z (-100).
Proof.
  destruct (decide (p = 0%Qc)) as [->|Hp]; [done|].
  unfold of_Z at 1. rewrite diff_previous_nonzero by done.
  replace ((Q2Qc (inject_Z 0) - p) / p * Q2Qc 100)%Qc with (Q2Qc (inject_Z (-100))).
  - unfold of_Z. f_equal. by apply Qc_is_canon.
  - change (Q2Qc (inject_Z 0)) with 0%Qc.
    change (Q2Qc (inject_Z (-100))) with (- Q2Qc 100)%Qc.
    field. done.
Qed.

Lemma of_nat_nonzero (n : nat) :
  n ≠ 0%nat → Q2Qc (inject_Z (Z.of_nat n)) ≠ 0%Qc.
Proof.
  intros Hn. apply Q2Qc_nonzero. unfold Qeq. cbn. lia.
Qed.

Lemma diff_current_zero_count (n : nat) :
  calculatePercentageDiff (of_nat 0) (of_nat n) =
  if decide (n = 0%nat) then of_Z 0 else of_Z (-100).
Proof.
  unfold of_nat at 2. change (of_nat 0) with (of_Z 0).
  rewrite diff_current_zero.
  destruct (decide (n = 0%nat)) as [->|Hn]; [done|].
  rewrite decide_False; [done|]. by apply of_nat_nonzero.
Qed.

(** In a year without orders that follows a year with orders the global
    report shows diffs of -100, not of 0. *)
Lemma empty_year_after_orders :
  json (reply (getShopGlobalStats IsoDate.utc in_order Sample.db Sample.year_2025)) =
    GlobalStatsBody
      {| GlobalStats.totalOrders := 0; GlobalStats.ordersDiff := of_Z (-100);
         GlobalStats.totalAmount := 0%Qc; GlobalStats.amountDiff := of_Z (-100);
         GlobalStats.avgRating := Q2Qc (9 # 2); GlobalStats.countRating := 12;
         GlobalStats.totalCustomers := 0; GlobalStats.customersDiff := of_Z (-100) |} ∧
  ¬ empty_year_global_as_worded.
Proof.
  split.
  - vm_compute. same_numbers.
  - intros Hclaim.
    specialize (Hclaim IsoDate.utc in_order Sample.db Sample.year_2025 7%N "2025"
                  1735689600000 1767225599999).
    do 5 (specialize (Hclaim ltac:(first [reflexivity | discriminate]))).
    vm_compute in Hclaim. discriminate Hclaim.
Qed.

(** C8 (amended). A request with its parameters present and its window
    resolved, whose window holds no order of the shop, is answered 200: the
    summary with four zeros, the top clients with two empty lists, the
    product and category statistics with the empty list, and the global
    report with counts and amount 0 and each diff 0 when the preceding
    year has 0 too, and -100 otherwise. *)
Theorem empty_window_reports h E db req shopId :
  user_shop_id req = Some shopId →
  (∀ a b,
     falsy (query_startDate req) = false → falsy (query_endDate req) = false →
     date_window h req = Ok (a, b) →
     filter (Filter.in_window shopId a b) (orders db) = [] →
     reply (getShopOrderSummary h E db req) =
       {| status := 200;
          json := OrderSummaryBody
            {| OrderSummary.totalOrders := 0; OrderSummary.totalAmount := 0%Qc;
               OrderSummary.pendingOrders := 0;
               OrderSummary.confirmedOrders := 0 |} |} ∧
     reply (getShopTopClients h E db req) =
       {| status := 200;
          json := TopClientsBody
            {| TopClients.topByCount := []; TopClients.topByAmount := [] |} |}) ∧
  (∀ year a b,
     query_year req = Some year → year ≠ "" →
     year_window h year = Ok (a, b) →
     filter (Filter.in_window shopId a b) (orders db) = [] →
     reply (getShopProductStats h E db req) =
       {| status := 200; json := ProductStatsBody [] |} ∧
     reply (getShopCategoryStats h E db req) =
       {| status := 200; json := CategoryStatsBody [] |} ∧
     ∀ a' b',
       year_window h (prevYear year) = Ok (a', b') →
       let previous := filter (Filter.in_window shopId a' b') (orders db) in
       let diff_against (nothing : Prop) `{Decision nothing} :=
         if decide nothing then of_Z 0 else of_Z (-100) in
       reply (getShopGlobalStats h E db req) =
         {| status := 200;
            json := GlobalStatsBody
              {| GlobalStats.totalOrders := 0;
                 GlobalStats.ordersDiff := diff_against (length previous = 0%nat);
                 GlobalStats.totalAmount := 0%Qc;
                 GlobalStats.amountDiff :=
                   diff_against (Stage.sum Order.amounts_total previous = 0%Qc);
                 GlobalStats.avgRating :=
                   default 0%Qc (Shop.avg_rating <$> shops db !! shopId);
                 GlobalStats.countRating :=
                   default 0%nat (Shop.count_rating <$> shops db !! shopId);
                 GlobalStats.totalCustomers := 0;
                 GlobalStats.customersDiff :=
                   diff_against
                     (length (remove_dups (Order.buyer_id <$> previous)) = 0%nat)
              |} |}).
Proof.
  intros Hshop. split.
  - intros a b Hs He Hw Hnil. split.
    + rewrite (order_summary_reply h E db req shopId a b) by done.
      by rewrite Hnil.
    + unfold getShopTopClients. rewrite Hshop, Hs, He, Hw. cbn.
      by rewrite !top_clients_empty.
  - intros year a b Hy Hne Hw Hnil.
    assert (falsy (query_year req) = false) as Hf
      by (rewrite Hy; by destruct year).
    split; [|split].
    + unfold getShopProductStats. rewrite Hshop, Hf, Hy. cbn. rewrite Hw. cbn.
      by rewrite product_stats_empty.
    + unfold getShopCategoryStats. rewrite Hshop, Hf, Hy. cbn. rewrite Hw. cbn.
      by rewrite category_stats_empty.
    + intros a' b' Hw' previous diff_against.
      unfold getShopGlobalStats. rewrite Hshop, Hf, Hy. cbn.
      rewrite Hw. cbn. rewrite Hw'. cbn.
      rewrite !totals_first_count, !totals_first_amount.
      rewrite distinct_buyers_empty by done.
      unfold distinct_buyers_query. rewrite distinct_length.
      rewrite Hnil. cbn [length Stage.sum foldr].
      fold previous. rewrite !diff_current_zero_count.
      change (Fin 0%Qc) with (of_Z 0). rewrite diff_current_zero.
      done.
Qed.

Lemma empty_window_reports_witness :
  reply (getShopOrderSummary IsoDate.utc in_order Sample.db Sample.year_2025) =
    {| status := 200;
       json := OrderSummaryBody
         {| OrderSummary.totalOrders := 0; OrderSummary.totalAmount := 0%Qc;
            OrderSummary.pendingOrders := 0;
            OrderSummary.confirmedOrders := 0 |} |} ∧
  reply (getShopTopClients IsoDate.utc in_order Sample.db Sample.year_2025) =
    {| status := 200;
       json := TopClientsBody
         {| TopClients.topByCount := []; TopClients.topByAmount := [] |} |} ∧
  reply (getShopProductStats IsoDate.utc in_order Sample.db Sample.year_2025) =
    {| status := 200; json := ProductStatsBody [] |} ∧
  reply (getShopCategoryStats IsoDate.utc in_order Sample.db Sample.year_2025) =
    {| status := 200; json := CategoryStatsBody [] |} ∧
  reply (getShopGlobalStats IsoDate.utc in_order Sample.db Sample.year_2025) =
    {| status := 200;
       json := GlobalStatsBody
         {| GlobalStats.totalOrders := 0; GlobalStats.ordersDiff := of_Z (-100);
            GlobalStats.totalAmount := 0%Qc; GlobalStats.amountDiff := of_Z (-100);
            GlobalStats.avgRating := Q2Qc (9 # 2); GlobalStats.countRating := 12;
            GlobalStats.totalCustomers := 0;
            GlobalStats.customersDiff := of_Z (-100) |} |}.
Proof.
  pose proof (empty_window_reports IsoDate.utc in_order Sample.db
                Sample.year_2025 7%N eq_refl) as [Hdates Hyear].
  destruct (Hdates 1735689600000 1767225599999) as [H1 H2];
    [reflexivity..|].
  destruct (Hyear "2025" 1735689600000 1767225599999) as (H3 & H4 & H5);
    [reflexivity|discriminate|reflexivity..|].
  specialize (H5 1704067200000 1735689599999 eq_refl).
  exact (conj H1 (conj H2 (conj H3 (conj H4 H5)))).
Defined.

(** ** C4: top clients *)

Lemma StronglySorted_sublist {A} (R : relation A) (l k : list A) :
  k `sublist_of` l → StronglySorted R l → StronglySorted R k.
Proof.
  induction 1 as [|x k l Hsub IH|x k l Hsub IH]; intros Hl; [done|..].
  - apply StronglySorted_inv in Hl as [Hl Hx]. constructor; [by apply IH|].
    apply Forall_forall. intros y Hy.
    eapply Forall_forall in Hx; [done|]. by eapply elem_of_sublist.
  - apply StronglySorted_inv in Hl as [Hl _]. by apply IH.
Qed.

(** Rows within the limit rank at least as high as rows beyond it. *)
Lemma sorted_take_above {A} (R : relation A) (l : list A) n x y :
  StronglySorted R l → x ∈ take n l → y ∈ l → y ∉ take n l → R x y.
Proof.
  intros Hl Hx Hy Hny. rewrite <- (take_drop n l) in Hl, Hy.
  apply elem_of_app in Hy as [Hy|Hy]; [done|].
  by eapply StronglySorted_app_1_elem_of.
Qed.

Section Join.
Context {A V : Type} (coll : gmap N V) (key : A → option N).

Lemma elem_of_lookup_unwind (l : list A) r v :
  (r, v) ∈ Stage.lookup_unwind coll key l ↔
  r ∈ l ∧ key r ≫= (coll !!.) = Some v.
Proof.
  unfold Stage.lookup_unwind. rewrite list_elem_of_bind. split.
  - intros (r' & Hin & Hr'). destruct (key r' ≫= _) as [v'|] eqn:Hk.
    + apply list_elem_of_singleton in Hin as [= -> ->]. done.
    + by apply not_elem_of_nil in Hin.
  - intros [Hr Hk]. exists r. rewrite Hk. split; [left|done].
Qed.

Lemma lookup_unwind_sublist (l : list A) :
  (Stage.lookup_unwind coll key l).*1 `sublist_of` l.
Proof.
  induction l as [|r l IH]; [done|].
  unfold Stage.lookup_unwind in *. cbn [mbind list_bind].
  destruct (key r ≫= _); cbn; by constructor.
Qed.
End Join.

Section TopClients.
Context (E : engine) (db : database) (shopId : ObjectId) (a b : Z).

Let validated := filter (Filter.validated_in_window shopId a b) (orders db).

Let group_row := client_group_row validated.

Lemma elem_of_client_groups r :
  r ∈ client_groups E db shopId a b ↔
  ∃ buyer, buyer ∈ Order.buyer_id <$> validated ∧ r = group_row buyer.
Proof.
  unfold client_groups. rewrite list_elem_of_fmap. split.
  - intros ([k g] & -> & Hg). apply elem_of_group in Hg as [Hk ->].
    by exists k.
  - intros (k & Hk & ->). eexists (k, _). split; [done|].
    by apply elem_of_group.
Qed.

Lemma client_groups_NoDup :
  NoDup (ClientGroup._id <$> client_groups E db shopId a b).
Proof.
  unfold client_groups. rewrite <- list_fmap_compose.
  apply (group_keys_NoDup E Order.buyer_id).
Qed.

Lemma project_group_row buyer user :
  project_client (group_row buyer, user) = client_row validated buyer user.
Proof. done. Qed.

Lemma top_clients_ranked (R : relation ClientGroup.t) (R' : relation Client.t)
    `{∀ x y, Decision (R x y)} `{!Total R} `{!Transitive R} :
  (∀ x y u v, R x y → R' (project_client (x, u)) (project_client (y, v))) →
  ranked_clients validated (users db) R' (top_clients_query E db R shopId a b).
Proof.
  intros HR. unfold top_clients_query.
  set (sorted := Stage.sort E R (client_groups E db shopId a b)).
  set (joined := Stage.lookup_unwind (users db) _ (take 5 sorted)).
  assert (Hsorted : StronglySorted R sorted) by by apply sort_sorted.
  assert (Hsub : joined.*1 `sublist_of` take 5 sorted)
    by apply lookup_unwind_sublist.
  assert (Hjoined : ∀ r u, (r, u) ∈ joined ↔
            r ∈ take 5 sorted ∧ users db !! ClientGroup._id r = Some u).
  { intros r u. unfold joined. by rewrite elem_of_lookup_unwind. }
  assert (Hgroups : ∀ r, r ∈ sorted ↔
            ∃ buyer, buyer ∈ Order.buyer_id <$> validated ∧ r = group_row buyer).
  { intros r. unfold sorted. by rewrite sort_elem_of, elem_of_client_groups. }
  assert (Hids : Client._id <$> (project_client <$> joined) =
                 ClientGroup._id <$> joined.*1).
  { by rewrite <- !list_fmap_compose. }
  split; [|split; [|split; [|split]]].
  - rewrite length_fmap, <- (length_fmap fst).
    etrans; [by apply sublist_length|]. rewrite length_take. lia.
  - rewrite Hids.
    apply (sublist_NoDup _ (ClientGroup._id <$> take 5 sorted));
      [|by apply fmap_sublist].
    apply (sublist_NoDup _ (ClientGroup._id <$> sorted));
      [|apply fmap_sublist, sublist_take].
    unfold sorted. rewrite sort_perm. apply client_groups_NoDup.
  - assert (StronglySorted R joined.*1) as Hj.
    { eapply StronglySorted_sublist; [done|].
      eapply StronglySorted_sublist; [apply sublist_take|done]. }
    clear -Hj HR. induction joined as [|[r u] l IH]; [constructor|].
    cbn in Hj. apply StronglySorted_inv in Hj as [Hl Hr].
    cbn. constructor; [by apply IH|].
    apply Forall_fmap, Forall_forall. intros [r' u'] Hin. cbn.
    apply HR. eapply Forall_forall in Hr; [done|].
    apply list_elem_of_fmap. by exists (r', u').
  - intros c Hc. apply list_elem_of_fmap in Hc as ([r u] & -> & Hru).
    apply Hjoined in Hru as [Hr Hu].
    apply elem_of_take in Hr as (i & Hr & _).
    apply list_elem_of_lookup_2 in Hr. apply Hgroups in Hr as (k & Hk & ->).
    exists k, u. done.
  - intros k u Hk Hu Hout c Hc.
    apply list_elem_of_fmap in Hc as ([r v] & -> & Hrv).
    apply Hjoined in Hrv as [Hr Hv].
    rewrite <- project_group_row. apply HR.
    eapply (sorted_take_above R sorted 5); [done..| |].
    + apply Hgroups. by exists k.
    + intros Htop. apply Hout.
      apply list_elem_of_fmap. exists (project_client (group_row k, u)).
      split; [done|]. apply list_elem_of_fmap. exists (group_row k, u).
      split; [done|]. by apply Hjoined.
Qed.
End TopClients.

#[local] Instance orderCount_desc_total : Total ClientGroup.orderCount_desc.
Proof. intros x y. unfold ClientGroup.orderCount_desc. lia. Qed.

#[local] Instance orderCount_desc_trans : Transitive ClientGroup.orderCount_desc.
Proof. intros x y z. unfold ClientGroup.orderCount_desc. lia. Qed.

#[local] Instance client_totalAmount_desc_total : Total ClientGroup.totalAmount_desc.
Proof. intros x y. unfold ClientGroup.totalAmount_desc. apply (total Qcle). Qed.

#[local] Instance client_totalAmount_desc_trans :
  Transitive ClientGroup.totalAmount_desc.
Proof.
  intros x y z. unfold ClientGroup.totalAmount_desc. intros ??. by etrans.
Qed.

Lemma elem_of_validated (db : database) shopId a b o :
  o ∈ filter (Filter.validated_in_window shopId a b) (orders db) ↔
  o ∈ orders db ∧ Order.shop_id o = shopId ∧
  Order.status o ∈ ["confirmed"; "shipped"; "delivered"] ∧
  a ≤ Order.created_at o ≤ b.
Proof. rewrite list_elem_of_filter. unfold Filter.validated_in_window. tauto. Qed.

(** The join with [users] keeps the rows in their order and drops those
    without a user record. *)
Lemma lookup_unwind_users (users : gmap N User.t) (l : list ClientGroup.t) :
  project_client <$>
    Stage.lookup_unwind users (λ r, Some (ClientGroup._id r)) l =
  omap (λ g, (λ user, project_client (g, user)) <$> users !! ClientGroup._id g) l.
Proof.
  induction l as [|g l IH]; [done|].
  unfold Stage.lookup_unwind in *. rewrite bind_cons, fmap_app, IH. cbn.
  by destruct (users !! ClientGroup._id g).
Qed.

Lemma top_clients_first_five E db (R : relation ClientGroup.t)
    `{∀ x y, Decision (R x y)} shopId a b :
  top_clients_query E db R shopId a b =
  first_five_joined (users db) (Stage.sort E R (client_groups E db shopId a b)).
Proof. apply lookup_unwind_users. Qed.

(** What the [$sort] stage hands to [$limit] is a ranking of all the
    buyers. *)
Lemma sorted_groups_ranking E db (R : relation ClientGroup.t)
    `{∀ x y, Decision (R x y)} `{!Total R} `{!Transitive R} shopId a b :
  ranking_by (filter (Filter.validated_in_window shopId a b) (orders db)) R
    (Stage.sort E R (client_groups E db shopId a b)).
Proof.
  split; [|by apply sort_sorted].
  rewrite sort_perm. unfold client_groups.
  by rewrite (group_perm E Order.buyer_id), <- list_fmap_compose.
Qed.

(** C4. The top-clients report takes the orders of the shop in the range
    whose status is confirmed, shipped or delivered, groups them by buyer
    with the count and the total of each buyer, and returns two views of
    these groups, one in descending order of count and one in descending
    order of total, each of at most five rows; a buyer without a user
    record is in neither. Each view is exactly the first five groups of a
    ranking of all the buyers, in the order of the ranking, without those
    that have no user record. *)
Theorem top_clients_two_rankings h E db req shopId a b :
  user_shop_id req = Some shopId →
  falsy (query_startDate req) = false →
  falsy (query_endDate req) = false →
  date_window h req = Ok (a, b) →
  let validated := filter (Filter.validated_in_window shopId a b) (orders db) in
  (∀ o, o ∈ validated ↔
     o ∈ orders db ∧ Order.shop_id o = shopId ∧
     Order.status o ∈ ["confirmed"; "shipped"; "delivered"] ∧
     a ≤ Order.created_at o ≤ b) ∧
  ∃ byCount byAmount,
    reply (getShopTopClients h E db req) =
      {| status := 200;
         json := TopClientsBody
           {| TopClients.topByCount := byCount;
              TopClients.topByAmount := byAmount |} |} ∧
    ranked_clients validated (users db) by_orderCount byCount ∧
    ranked_clients validated (users db) by_totalAmount byAmount ∧
    (∃ ranking,
       ranking_by validated ClientGroup.orderCount_desc ranking ∧
       byCount = first_five_joined (users db) ranking) ∧
    (∃ ranking,
       ranking_by validated ClientGroup.totalAmount_desc ranking ∧
       byAmount = first_five_joined (users db) ranking).
Proof.
  intros Hshop Hs He Hw validated. split; [apply elem_of_validated|].
  unfold getShopTopClients. rewrite Hshop, Hs, He, Hw. cbn.
  eexists _, _. split; [done|].
  split; [apply top_clients_ranked; [apply _..|]; by intros x y u v|].
  split; [apply top_clients_ranked; [apply _..|]; by intros x y u v|].
  split.
  - exists (Stage.sort E ClientGroup.orderCount_desc
              (client_groups E db shopId a b)).
    split; [apply sorted_groups_ranking; apply _|apply top_clients_first_five].
  - exists (Stage.sort E ClientGroup.totalAmount_desc
              (client_groups E db shopId a b)).
    split; [apply sorted_groups_ranking; apply _|apply top_clients_first_five].
Qed.

Lemma top_clients_two_rankings_witness :
  let validated :=
    filter (Filter.validated_in_window 7%N 1704067200000 1735689599999)
      (orders Sample.db) in
  ∃ byCount byAmount,
    reply (getShopTopClients IsoDate.utc reversed Sample.db Sample.year_2024) =
      {| status := 200;
         json := TopClientsBody
           {| TopClients.topByCount := byCount;
              TopClients.topByAmount := byAmount |} |} ∧
    ranked_clients validated (users Sample.db) by_orderCount byCount ∧
    ranked_clients validated (users Sample.db) by_totalAmount byAmount ∧
    (∃ ranking,
       ranking_by validated ClientGroup.orderCount_desc ranking ∧
       byCount = first_five_joined (users Sample.db) ranking) ∧
    (∃ ranking,
       ranking_by validated ClientGroup.totalAmount_desc ranking ∧
       byAmount = first_five_joined (users Sample.db) ranking).
Proof.
  intros validated.
  refine (proj2 (top_clients_two_rankings IsoDate.utc reversed Sample.db
            Sample.year_2024 7%N 1704067200000 1735689599999 _ _ _ _));
    reflexivity.
Defined.

(** Buyer 101 with two confirmed orders totalling 50 leads by count, buyer
    102 with one delivered order of 80 leads by amount, and buyer 100, whose
    only order of the year is pending, is in neither view. *)
Example top_clients_sample :
  json (reply (getShopTopClients IsoDate.utc reversed Sample.db Sample.year_2024)) =
  let ada := {| Client._id := 101; Client.orderCount := 2;
                Client.totalAmount := amount 50; Client.firstname := "Ada";
                Client.lastname := "A"; Client.email := "ada@example.org" |} in
  let bob := {| Client._id := 102; Client.orderCount := 1;
                Client.totalAmount := amount 80; Client.firstname := "Bob";
                Client.lastname := "B"; Client.email := "bob@example.org" |} in
  TopClientsBody {| TopClients.topByCount := [ada; bob];
                    TopClients.topByAmount := [bob; ada] |}.
Proof. vm_compute. same_numbers. Qed.

(** ** C6: statistics per product *)

#[local] Instance product_totalAmount_desc_total : Total ProductStat.totalAmount_desc.
Proof. intros x y. unfold ProductStat.totalAmount_desc. apply (total Qcle). Qed.

#[local] Instance product_totalAmount_desc_trans :
  Transitive ProductStat.totalAmount_desc.
Proof.
  intros x y z. unfold ProductStat.totalAmount_desc. intros ??. by etrans.
Qed.

Section ProductStats.
Context (E : engine) (db : database) (shopId : ObjectId) (a b : Z).

Let lines :=
  Stage.unwind_items (filter (Filter.in_window shopId a b) (orders db)).

Lemma elem_of_unwind_items (l : list Order.t) o i :
  (o, i) ∈ Stage.unwind_items l ↔ o ∈ l ∧ i ∈ Order.items o.
Proof.
  unfold Stage.unwind_items. rewrite list_elem_of_bind. split.
  - intros (o' & Hi & Ho'). apply list_elem_of_fmap in Hi as (i' & [= -> ->] & Hi').
    done.
  - intros [Ho Hi]. exists o. split; [|done].
    apply list_elem_of_fmap. by exists i.
Qed.

Lemma elem_of_product_stats r :
  r ∈ product_stats_query E db shopId a b ↔
  ∃ product,
    product ∈ (Item.product_id ∘ snd) <$> lines ∧ r = product_row lines product.
Proof.
  unfold product_stats_query. rewrite sort_elem_of, list_elem_of_fmap. split.
  - intros ([k g] & -> & Hg). apply elem_of_group in Hg as [Hk ->].
    by exists k.
  - intros (k & Hk & ->). eexists (k, _). split; [done|].
    by apply elem_of_group.
Qed.

Lemma product_stats_NoDup :
  NoDup (ProductStat._id <$> product_stats_query E db shopId a b).
Proof.
  unfold product_stats_query. rewrite sort_perm, <- list_fmap_compose.
  apply (group_keys_NoDup E (Item.product_id ∘ snd)).
Qed.

Lemma product_stats_sorted :
  StronglySorted ProductStat.totalAmount_desc
    (product_stats_query E db shopId a b).
Proof. apply sort_sorted; apply _. Qed.

(** The lines of a product that occurs are not empty, and the first of
    them gives the name. *)
Lemma product_row_first product :
  product ∈ (Item.product_id ∘ snd) <$> lines →
  ∃ line others,
    filter (λ l, Item.product_id l.2 = product) lines = line :: others ∧
    ProductStat.productName (product_row lines product) = Item.name line.2 ∧
    ProductStat.orderCount (product_row lines product) = length (line :: others) ∧
    ProductStat.totalAmount (product_row lines product) =
      Stage.sum (Item.total_price_ttc ∘ snd) (line :: others).
Proof.
  intros Hp. apply list_elem_of_fmap in Hp as (l & -> & Hl).
  unfold product_row. cbn.
  destruct (filter _ lines) as [|line others] eqn:Hf.
  - exfalso. eapply (filter_nil_not_elem_of _ _ l Hf); done.
  - by exists line, others.
Qed.
End ProductStats.

(** The product statistics read the orders only. *)
Lemma product_stats_orders_only h E db db' req :
  orders db' = orders db →
  getShopProductStats h E db' req = getShopProductStats h E db req.
Proof.
  intros Heq. unfold getShopProductStats, product_stats_query. by rewrite Heq.
Qed.

(** C6. The per-product report expands the orders of the shop in the year
    into their line items and returns one row per product among them, with
    the name of the first line of the product (whatever the product
    collection holds), the number of its lines and the sum of their
    tax-inclusive prices, in descending order of that sum. *)
Theorem product_stats_rows h E db req shopId year a b :
  user_shop_id req = Some shopId →
  query_year req = Some year → year ≠ "" →
  year_window h year = Ok (a, b) →
  let lines :=
    Stage.unwind_items (filter (Filter.in_window shopId a b) (orders db)) in
  (∀ o i, (o, i) ∈ lines ↔
     (o ∈ orders db ∧ Filter.in_window shopId a b o) ∧ i ∈ Order.items o) ∧
  (∀ db', orders db' = orders db →
     getShopProductStats h E db' req = getShopProductStats h E db req) ∧
  ∃ rows,
    reply (getShopProductStats h E db req) =
      {| status := 200; json := ProductStatsBody rows |} ∧
    StronglySorted ProductStat.totalAmount_desc rows ∧
    NoDup (ProductStat._id <$> rows) ∧
    (∀ r, r ∈ rows ↔
       ∃ product,
         product ∈ (Item.product_id ∘ snd) <$> lines ∧
         r = product_row lines product) ∧
    (∀ r, r ∈ rows →
       ∃ line others,
         filter (λ l, Item.product_id l.2 = ProductStat._id r) lines
           = line :: others ∧
         ProductStat.productName r = Item.name line.2 ∧
         ProductStat.orderCount r = length (line :: others) ∧
         ProductStat.totalAmount r =
           Stage.sum (Item.total_price_ttc ∘ snd) (line :: others)).
Proof.
  intros Hshop Hy Hne Hw lines.
  split; [|split].
  - intros o i. unfold lines.
    rewrite elem_of_unwind_items, list_elem_of_filter. tauto.
  - intros db'. apply product_stats_orders_only.
  - assert (falsy (query_year req) = false) as Hf
      by (rewrite Hy; by destruct year).
    unfold getShopProductStats. rewrite Hshop, Hf, Hy. cbn. rewrite Hw. cbn.
    eexists. split; [done|].
    split; [apply product_stats_sorted|].
    split; [apply product_stats_NoDup|].
    split; [apply elem_of_product_stats|].
    intros r Hr. apply elem_of_product_stats in Hr as (p & Hp & ->).
    destruct (product_row_first db shopId a b p Hp)
      as (line & others & Hlines & Hname & Hcount & Hsum).
    by exists line, others.
Qed.

Lemma product_stats_rows_witness :
  ∃ rows,
    reply (getShopProductStats IsoDate.utc reversed Sample.db Sample.year_2024) =
      {| status := 200; json := ProductStatsBody rows |} ∧
    StronglySorted ProductStat.totalAmount_desc rows ∧
    NoDup (ProductStat._id <$> rows).
Proof.
  destruct (product_stats_rows IsoDate.utc reversed Sample.db Sample.year_2024
              7%N "2024" 1704067200000 1735689599999)
    as (_ & _ & rows & Hreply & Hsorted & Hnodup & _);
    [reflexivity|reflexivity|discriminate|reflexivity|].
  exists rows. exact (conj Hreply (conj Hsorted Hnodup)).
Defined.

(** The first line of product 1 is named Tea; its later line, under
    another name, does not show. *)
Example product_stats_sample :
  json (reply (getShopProductStats IsoDate.utc reversed Sample.db Sample.year_2024)) =
  ProductStatsBody
    [ {| ProductStat._id := 4; ProductStat.productName := "Kettle";
         ProductStat.orderCount := 1; ProductStat.totalAmount := amount 80 |};
      {| ProductStat._id := 3; ProductStat.productName := "Pot";
         ProductStat.orderCount := 1; ProductStat.totalAmount := amount 30 |};
      {| ProductStat._id := 1; ProductStat.productName := "Tea";
         ProductStat.orderCount := 2; ProductStat.totalAmount := amount 24 |};
      {| ProductStat._id := 2; ProductStat.productName := "Cup";
         ProductStat.orderCount := 1; ProductStat.totalAmount := amount 6 |} ].
Proof. vm_compute. same_numbers. Qed.

(** ** C2 and C10: statistics per category *)

#[local] Instance category_totalAmount_desc_total :
  Total CategoryStat.totalAmount_desc.
Proof. intros x y. unfold CategoryStat.totalAmount_desc. apply (total Qcle). Qed.

#[local] Instance category_totalAmount_desc_trans :
  Transitive CategoryStat.totalAmount_desc.
Proof.
  intros x y z. unfold CategoryStat.totalAmount_desc. intros ??. by etrans.
Qed.

Lemma lookup_unwind_fst {A V} (coll : gmap N V) (key : A → option N) (l : list A) :
  (Stage.lookup_unwind coll key l).*1 =
  filter (λ r, is_Some (key r ≫= (coll !!.))) l.
Proof.
  induction l as [|r l IH]; [done|].
  unfold Stage.lookup_unwind in *. cbn [mbind list_bind].
  rewrite filter_cons. destruct (key r ≫= _) as [v|] eqn:Hk.
  - rewrite decide_True by eauto. cbn. by rewrite IH.
  - rewrite decide_False by (by intros [? ?]). cbn. apply IH.
Qed.

Lemma group_lengths_skip {A K} `{EqDecision K} (key : A → K) (ks : list K)
    (x : A) (l : list A) :
  key x ∉ ks →
  sum_list ((λ k, length (filter (λ y, key y = k) (x :: l))) <$> ks) =
  sum_list ((λ k, length (filter (λ y, key y = k) l)) <$> ks).
Proof.
  induction ks as [|k ks IH]; intros Hk; [done|].
  apply not_elem_of_cons in Hk as [Hne Hk].
  cbn [fmap list_fmap sum_list sum_list_with].
  rewrite filter_cons_False by done. f_equal. by apply IH.
Qed.

(** Every key among [ks] once, and every element keyed in [ks]: the groups
    of the keys partition the list. *)
Lemma group_lengths_sum {A K} `{EqDecision K} (key : A → K) (ks : list K)
    (l : list A) :
  NoDup ks → (∀ x, x ∈ l → key x ∈ ks) →
  sum_list ((λ k, length (filter (λ x, key x = k) l)) <$> ks) = length l.
Proof.
  intros Hnd. induction l as [|x l IH]; intros Hks.
  - clear. induction ks as [|k ks IHk]; [done|]. cbn. apply IHk.
  - cbn [length]. rewrite <- IH by (intros y Hy; apply Hks; by right).
    assert (key x ∈ ks) as Hx by (apply Hks; left).
    clear IH Hks. induction ks as [|k ks IHk]; [by apply not_elem_of_nil in Hx|].
    apply NoDup_cons in Hnd as [Hk Hnd]. cbn [fmap list_fmap sum_list sum_list_with].
    rewrite filter_cons. destruct (decide (key x = k)) as [Heq|Hne].
    + rewrite <- Heq in Hk. rewrite group_lengths_skip by done.
      cbn [length]. unfold id. lia.
    + apply elem_of_cons in Hx as [?|Hx]; [done|].
      rewrite (IHk Hnd Hx). unfold id. lia.
Qed.

Section CategoryStats.
Context (E : engine) (db : database) (shopId : ObjectId) (a b : Z).

Let lines :=
  Stage.unwind_items (filter (Filter.in_window shopId a b) (orders db)).
Let joined := category_rows db shopId a b.

Lemma elem_of_category_rows o i p c :
  (o, i, p, c) ∈ joined ↔
  (o, i) ∈ lines ∧ products db !! Item.product_id i = Some p ∧
  c = Product.category_id p ≫= (categoryproducts db !!.).
Proof.
  unfold joined, category_rows, Stage.lookup_unwind_preserve.
  rewrite list_elem_of_fmap. split.
  - intros ([[o' i'] p'] & [= -> -> -> ->] & Hin).
    apply elem_of_lookup_unwind in Hin as [Hl Hp]. done.
  - intros (Hl & Hp & ->). exists (o, i, p). split; [done|].
    by apply elem_of_lookup_unwind.
Qed.

Lemma category_rows_category r :
  r ∈ joined → r.2 = Product.category_id r.1.2 ≫= (categoryproducts db !!.).
Proof.
  destruct r as [[[o i] p] c]. intros Hr.
  by apply elem_of_category_rows in Hr as (_ & _ & ->).
Qed.

(** A line item whose product has no record is in no joined row. *)
Lemma unknown_product_not_joined o i p c :
  products db !! Item.product_id i = None → (o, i, p, c) ∉ joined.
Proof.
  intros Hnone Hin. apply elem_of_category_rows in Hin as (_ & Hp & _).
  congruence.
Qed.

Lemma category_rows_length :
  length joined =
  length (filter (λ l, is_Some (products db !! Item.product_id l.2)) lines).
Proof.
  unfold joined, category_rows, Stage.lookup_unwind_preserve.
  rewrite length_fmap, <- (length_fmap fst), lookup_unwind_fst. done.
Qed.

Lemma category_group_name (category : option ObjectId) :
  category ∈ (λ r, Product.category_id r.1.2) <$> joined →
  Stage.first (category_name_or_default ∘ snd) ""
    (filter (λ r, Product.category_id r.1.2 = category) joined) =
  category_name_or_default (category ≫= (categoryproducts db !!.)).
Proof.
  intros Hk. apply list_elem_of_fmap in Hk as (r & -> & Hr).
  destruct (filter _ joined) as [|x g] eqn:Hf.
  - exfalso. by eapply (filter_nil_not_elem_of _ _ r Hf).
  - assert (x ∈ filter (λ r0, Product.category_id r0.1.2 =
                               Product.category_id r.1.2) joined) as Hx
      by (rewrite Hf; left).
    apply list_elem_of_filter in Hx as [Hkey Hx]. cbn.
    by rewrite (category_rows_category x Hx), Hkey.
Qed.

Lemma elem_of_category_stats r :
  r ∈ category_stats_query E db shopId a b ↔
  ∃ category,
    category ∈ (λ r, Product.category_id r.1.2) <$> joined ∧
    r = category_row db joined category.
Proof.
  unfold category_stats_query. rewrite sort_elem_of, list_elem_of_fmap.
  fold joined. split.
  - intros ([k g] & -> & Hg). apply elem_of_group in Hg as [Hk ->].
    exists k. split; [done|]. unfold category_row. cbn.
    by rewrite category_group_name.
  - intros (k & Hk & ->). eexists (k, _). split; [|by apply elem_of_group].
    unfold category_row. cbn. by rewrite category_group_name.
Qed.

Lemma category_stats_NoDup :
  NoDup (CategoryStat._id <$> category_stats_query E db shopId a b).
Proof.
  unfold category_stats_query. rewrite sort_perm, <- list_fmap_compose.
  apply (group_keys_NoDup E (λ r, Product.category_id r.1.2)).
Qed.

(** The counts of the rows add up to the number of line items that have a
    product record. *)
Lemma category_stats_count_sum :
  sum_list (CategoryStat.orderCount <$> category_stats_query E db shopId a b) =
  length (filter (λ l, is_Some (products db !! Item.product_id l.2)) lines).
Proof.
  rewrite <- category_rows_length. unfold category_stats_query.
  rewrite sort_perm, <- list_fmap_compose. fold joined.
  rewrite (group_perm E (λ r, Product.category_id r.1.2)), <- list_fmap_compose.
  apply (group_lengths_sum (λ r, Product.category_id r.1.2)).
  - apply NoDup_remove_dups.
  - intros x Hx. apply elem_of_remove_dups, list_elem_of_fmap. by exists x.
Qed.
End CategoryStats.

Lemma category_stats_reply h E db req shopId year a b :
  user_shop_id req = Some shopId →
  query_year req = Some year → year ≠ "" →
  year_window h year = Ok (a, b) →
  reply (getShopCategoryStats h E db req) =
  {| status := 200;
     json := CategoryStatsBody (category_stats_query E db shopId a b) |}.
Proof.
  intros Hshop Hy Hne Hw.
  assert (falsy (query_year req) = false) as Hf
    by (rewrite Hy; by destruct year).
  unfold getShopCategoryStats. rewrite Hshop, Hf, Hy. cbn. by rewrite Hw.
Qed.

(** In the sample, the lines of product 1 (no category) and of product 2
    (a category that has no record) make two rows, both labelled
    uncategorized. *)
Lemma two_uncategorized_rows :
  json (reply (getShopCategoryStats IsoDate.utc in_order Sample.db Sample.year_2024)) =
    CategoryStatsBody
      [ {| CategoryStat._id := Some 51%N; CategoryStat.categoryName := "Kitchen";
           CategoryStat.orderCount := 1; CategoryStat.totalAmount := amount 80 |};
        {| CategoryStat._id := None;
           CategoryStat.categoryName := "Sans catégorie";
           CategoryStat.orderCount := 2; CategoryStat.totalAmount := amount 24 |};
        {| CategoryStat._id := Some 50%N;
           CategoryStat.categoryName := "Sans catégorie";
           CategoryStat.orderCount := 1; CategoryStat.totalAmount := amount 6 |} ] ∧
  ¬ one_uncategorized_bucket_as_worded.
Proof.
  assert (json (reply (getShopCategoryStats IsoDate.utc in_order Sample.db
                         Sample.year_2024)) =
    CategoryStatsBody
      [ {| CategoryStat._id := Some 51%N; CategoryStat.categoryName := "Kitchen";
           CategoryStat.orderCount := 1; CategoryStat.totalAmount := amount 80 |};
        {| CategoryStat._id := None;
           CategoryStat.categoryName := "Sans catégorie";
           CategoryStat.orderCount := 2; CategoryStat.totalAmount := amount 24 |};
        {| CategoryStat._id := Some 50%N;
           CategoryStat.categoryName := "Sans catégorie";
           CategoryStat.orderCount := 1; CategoryStat.totalAmount := amount 6 |} ])
    as Hrows by (vm_compute; same_numbers).
  split; [done|]. intros Hclaim.
  specialize (Hclaim _ _ _ _ _ Hrows _ _
                ltac:(right; left) ltac:(right; right; left)
                ltac:(reflexivity) ltac:(reflexivity)).
  discriminate Hclaim.
Qed.

(** C2 (amended). In the per-category statistics every line item with a
    product record whose product has a null category identifier, or a
    category identifier without a category record, is counted in the row of
    that identifier, labelled [Sans catégorie]. The line items with a null
    identifier make one row; those of an identifier without a record make
    one row for that identifier. *)
Theorem uncategorized_rows h E db req shopId year a b :
  user_shop_id req = Some shopId →
  query_year req = Some year → year ≠ "" →
  year_window h year = Ok (a, b) →
  let joined := category_rows db shopId a b in
  ∃ rows,
    reply (getShopCategoryStats h E db req) =
      {| status := 200; json := CategoryStatsBody rows |} ∧
    NoDup (CategoryStat._id <$> rows) ∧
    (∀ line, line ∈ joined →
       categoryless db (Product.category_id line.1.2) →
       let theirs :=
         filter (λ r, Product.category_id r.1.2 = Product.category_id line.1.2)
           joined in
       line ∈ theirs ∧
       {| CategoryStat._id := Product.category_id line.1.2;
          CategoryStat.categoryName := "Sans catégorie";
          CategoryStat.orderCount := length theirs;
          CategoryStat.totalAmount :=
            Stage.sum (λ r, Item.total_price_ttc r.1.1.2) theirs |} ∈ rows) ∧
    (∀ r1 r2, r1 ∈ rows → r2 ∈ rows →
       CategoryStat._id r1 = CategoryStat._id r2 → r1 = r2).
Proof.
  intros Hshop Hy Hne Hw joined.
  eexists. split; [by eapply category_stats_reply|].
  split; [apply category_stats_NoDup|]. split.
  - intros line Hline Hless theirs. split.
    + apply list_elem_of_filter. done.
    + apply elem_of_category_stats.
      exists (Product.category_id line.1.2). split.
      * apply list_elem_of_fmap. by exists line.
      * unfold category_row. fold joined. fold theirs.
        unfold categoryless in Hless. by rewrite Hless.
  - intros r1 r2 Hr1 Hr2 Hid.
    apply elem_of_category_stats in Hr1 as (k1 & _ & ->).
    apply elem_of_category_stats in Hr2 as (k2 & _ & ->).
    cbn in Hid. by rewrite Hid.
Qed.

Lemma uncategorized_rows_witness :
  ∃ rows,
    reply (getShopCategoryStats IsoDate.utc reversed Sample.db Sample.year_2024) =
      {| status := 200; json := CategoryStatsBody rows |} ∧
    NoDup (CategoryStat._id <$> rows).
Proof.
  destruct (uncategorized_rows IsoDate.utc reversed Sample.db Sample.year_2024
              7%N "2024" 1704067200000 1735689599999)
    as (rows & Hreply & Hnodup & _);
    [reflexivity|reflexivity|discriminate|reflexivity|].
  exists rows. exact (conj Hreply Hnodup).
Defined.

(** C10. In the per-category statistics a line item whose product
    identifier matches no product record is in no row, while a line item
    with a product record is kept whether its category is found or not:
    the rows are made of the line items that have a product record, their
    counts add up to the number of those, and a year in which no line item
    has a product record gives no row at all, not even an uncategorized
    one. *)
Theorem unknown_product_lines_excluded h E db req shopId year a b :
  user_shop_id req = Some shopId →
  query_year req = Some year → year ≠ "" →
  year_window h year = Ok (a, b) →
  let lines :=
    Stage.unwind_items (filter (Filter.in_window shopId a b) (orders db)) in
  let joined := category_rows db shopId a b in
  ∃ rows,
    reply (getShopCategoryStats h E db req) =
      {| status := 200; json := CategoryStatsBody rows |} ∧
    (∀ o i, (o, i) ∈ lines → products db !! Item.product_id i = None →
       ∀ p c, (o, i, p, c) ∉ joined) ∧
    (∀ o i p c, (o, i, p, c) ∈ joined →
       (o, i) ∈ lines ∧ products db !! Item.product_id i = Some p) ∧
    (∀ o i p, (o, i) ∈ lines → products db !! Item.product_id i = Some p →
       (o, i, p, Product.category_id p ≫= (categoryproducts db !!.)) ∈ joined) ∧
    (∀ r, r ∈ rows → r = category_row db joined (CategoryStat._id r)) ∧
    sum_list (CategoryStat.orderCount <$> rows) =
      length (filter (λ l, is_Some (products db !! Item.product_id l.2)) lines) ∧
    ((∀ l, l ∈ lines → products db !! Item.product_id l.2 = None) → rows = []).
Proof.
  intros Hshop Hy Hne Hw lines joined.
  eexists. split; [by eapply category_stats_reply|].
  split; [|split; [|split; [|split; [|split]]]].
  - intros o i _ Hnone p c. by apply unknown_product_not_joined.
  - intros o i p c Hin. by apply elem_of_category_rows in Hin as (? & ? & _).
  - intros o i p Hl Hp. by apply elem_of_category_rows.
  - intros r Hr. by apply elem_of_category_stats in Hr as (k & _ & ->).
  - apply category_stats_count_sum.
  - intros Hnone.
    destruct (category_stats_query E db shopId a b) as [|r rows] eqn:Hq; [done|].
    assert (r ∈ category_stats_query E db shopId a b) as Hr by (rewrite Hq; left).
    apply elem_of_category_stats in Hr as (k & Hk & _).
    apply list_elem_of_fmap in Hk as ([[[o i] p] c] & _ & Hin).
    apply elem_of_category_rows in Hin as (Hl & Hp & _).
    specialize (Hnone _ Hl). cbn in Hnone. congruence.
Qed.

Lemma unknown_product_lines_excluded_witness :
  ∃ rows,
    reply (getShopCategoryStats IsoDate.utc reversed Sample.db Sample.year_2024) =
      {| status := 200; json := CategoryStatsBody rows |} ∧
    sum_list (CategoryStat.orderCount <$> rows) = 4%nat.
Proof.
  destruct (unknown_product_lines_excluded IsoDate.utc reversed Sample.db
              Sample.year_2024 7%N "2024" 1704067200000 1735689599999)
    as (rows & Hreply & _ & _ & _ & _ & Hsum & _);
    [reflexivity|reflexivity|discriminate|reflexivity|].
  exists rows. exact (conj Hreply Hsum).
Defined.

(** ** C7: global statistics *)





(** The year 2024 and the year before it, on a host in UTC. *)
Example year_windows_2024 :
  prevYear "2024" = "2023" ∧
  year_window IsoDate.utc "2024" = Ok (1704067200000, 1735689599999) ∧
  year_window IsoDate.utc (prevYear "2024") = Ok (1672531200000, 1704067199999).
Proof. repeat split. Qed.



(** 2024 against 2023 in the sample: four orders after one, 140 after 40,
    three buyers after one. *)
Example global_stats_sample :
  json (reply (getShopGlobalStats IsoDate.utc reversed Sample.db Sample.year_2024)) =
  GlobalStatsBody
    {| GlobalStats.totalOrders := 4; GlobalStats.ordersDiff := of_Z 300;
       GlobalStats.totalAmount := amount 140; GlobalStats.amountDiff := of_Z 250;
       GlobalStats.avgRating := Q2Qc (9 # 2); GlobalStats.countRating := 12;
       GlobalStats.totalCustomers := 3; GlobalStats.customersDiff := of_Z 200 |}.
Proof. vm_compute. same_numbers. Qed.

(** ** A repeat buyer *)

(** Five orders by one buyer after a year without orders: one customer, and
    diffs of 100; a shop without a record has rating 0. *)
Example global_stats_repeat_buyer :
  json (reply (getShopGlobalStats IsoDate.utc rotated Repeat.db Sample.year_2024)) =
  GlobalStatsBody
    {| GlobalStats.totalOrders := 5; GlobalStats.ordersDiff := of_Z 100;
       GlobalStats.totalAmount := amount 50; GlobalStats.amountDiff := of_Z 100;
       GlobalStats.avgRating := 0%Qc; GlobalStats.countRating := 0;
       GlobalStats.totalCustomers := 1; GlobalStats.customersDiff := of_Z 100 |}.
Proof. vm_compute. same_numbers. Qed.


(** * Further properties of the handlers *)

(** ** The order summary *)

Lemma window_reversed_empty (db : database) shopId a b :
  b < a → filter (Filter.in_window shopId a b) (orders db) = [].
Proof.
  intros Hba. apply filter_none. intros o _ [_ Ht]. lia.
Qed.

(** X2. A range whose start is after its end is not refused: the order
    summary answers 200 with four zeros and the top clients with two empty
    lists. *)
Theorem reversed_range_answers_empty h E db req shopId a b :
  user_shop_id req = Some shopId →
  falsy (query_startDate req) = false →
  falsy (query_endDate req) = false →
  date_window h req = Ok (a, b) →
  b < a →
  reply (getShopOrderSummary h E db req) =
    {| status := 200;
       json := OrderSummaryBody
         {| OrderSummary.totalOrders := 0; OrderSummary.totalAmount := 0%Qc;
            OrderSummary.pendingOrders := 0;
            OrderSummary.confirmedOrders := 0 |} |} ∧
  reply (getShopTopClients h E db req) =
    {| status := 200;
       json := TopClientsBody
         {| TopClients.topByCount := []; TopClients.topByAmount := [] |} |}.
Proof.
  intros Hshop Hs He Hw Hba.
  pose proof (window_reversed_empty db shopId a b Hba) as Hnil. split.
  - rewrite (order_summary_reply h E db req shopId a b) by done.
    by rewrite Hnil.
  - unfold getShopTopClients. rewrite Hshop, Hs, He, Hw. cbn.
    by rewrite !top_clients_empty.
Qed.

Lemma reversed_range_answers_empty_witness :
  let req := {| user_shop_id := Some 7%N;
                query_startDate := Some "2024-12-31";
                query_endDate := Some "2024-01-01"; query_year := None |} in
  reply (getShopOrderSummary IsoDate.utc rotated Sample.db req) =
    {| status := 200;
       json := OrderSummaryBody
         {| OrderSummary.totalOrders := 0; OrderSummary.totalAmount := 0%Qc;
            OrderSummary.pendingOrders := 0;
            OrderSummary.confirmedOrders := 0 |} |} ∧
  reply (getShopTopClients IsoDate.utc rotated Sample.db req) =
    {| status := 200;
       json := TopClientsBody
         {| TopClients.topByCount := []; TopClients.topByAmount := [] |} |}.
Proof.
  intros req.
  apply (reversed_range_answers_empty IsoDate.utc rotated Sample.db req 7%N
           1735603200000 1704153599999); reflexivity.
Defined.

(** What a handler that answers with a summary has computed. *)
Lemma order_summary_body_inv h E db req body :
  json (reply (getShopOrderSummary h E db req)) = OrderSummaryBody body →
  ∃ shopId a b,
    user_shop_id req = Some shopId ∧ date_window h req = Ok (a, b) ∧
    body = summary_of (filter (Filter.in_window shopId a b) (orders db)).
Proof.
  unfold getShopOrderSummary.
  destruct (user_shop_id req) as [shopId|]; [|done].
  destruct (falsy _ || falsy _); [done|].
  destruct (date_window h req) as [[a b]|m]; [|done]. cbn.
  rewrite !totals_first_count, !totals_first_amount, !status_count.
  intros [= <-]. by exists shopId, a, b.
Qed.

Lemma two_statuses_within {A} (P Q : A → Prop) `{∀ x, Decision (P x)}
    `{∀ x, Decision (Q x)} (l : list A) :
  (∀ x, P x → Q x → False) →
  (length (filter P l) + length (filter Q l) ≤ length l)%nat.
Proof.
  intros Hpq. induction l as [|x l IH]; [done|].
  rewrite !filter_cons.
  destruct (decide (P x)), (decide (Q x)); cbn [length]; [|lia..].
  by destruct (Hpq x).
Qed.

(** X3. In every summary the pending and the confirmed orders together are
    no more than the total, and a total of 0 comes with an amount of 0. *)
Theorem order_summary_parts_within_total h E db req body :
  json (reply (getShopOrderSummary h E db req)) = OrderSummaryBody body →
  (OrderSummary.pendingOrders body + OrderSummary.confirmedOrders body
     ≤ OrderSummary.totalOrders body)%nat ∧
  (OrderSummary.totalOrders body = 0%nat → OrderSummary.totalAmount body = 0%Qc).
Proof.
  intros Hbody.
  apply order_summary_body_inv in Hbody as (shopId & a & b & _ & _ & ->).
  unfold summary_of. cbn. split.
  - apply two_statuses_within. intros o Hp Hc. congruence.
  - intros Hlen. apply length_zero_iff_nil in Hlen. by rewrite Hlen.
Qed.

Lemma order_summary_sample :
  json (reply (getShopOrderSummary IsoDate.utc in_order Sample.db Sample.january)) =
  OrderSummaryBody
    {| OrderSummary.totalOrders := 3; OrderSummary.totalAmount := amount 60;
       OrderSummary.pendingOrders := 1; OrderSummary.confirmedOrders := 2 |}.
Proof. vm_compute. same_numbers. Defined.

Lemma order_summary_parts_within_total_witness :
  ∃ body,
    json (reply (getShopOrderSummary IsoDate.utc in_order Sample.db
                   Sample.january)) = OrderSummaryBody body ∧
    OrderSummary.totalOrders body = 3%nat ∧
    (OrderSummary.pendingOrders body + OrderSummary.confirmedOrders body
       ≤ OrderSummary.totalOrders body)%nat ∧
    (OrderSummary.totalOrders body = 0%nat →
     OrderSummary.totalAmount body = 0%Qc).
Proof.
  eexists. split; [exact order_summary_sample|]. split; [reflexivity|].
  exact (order_summary_parts_within_total IsoDate.utc in_order Sample.db
           Sample.january _ order_summary_sample).
Defined.

(** ** One shop's reports and the other shops' data *)

Lemma filter_through {A} (P Q : A → Prop) `{∀ x, Decision (P x)}
    `{∀ x, Decision (Q x)} (l : list A) :
  (∀ x, P x → Q x) → filter P l = filter P (filter Q l).
Proof.
  intros Hpq. induction l as [|x l IH]; [done|].
  rewrite (filter_cons Q). destruct (decide (Q x)) as [Hq|Hq].
  - rewrite !filter_cons. destruct (decide (P x)); by rewrite IH.
  - rewrite filter_cons_False by (intros Hp; by apply Hq, Hpq). done.
Qed.

Section SameForShop.
Context (E : engine) (shopId : ObjectId) (db db' : database).
Context (Hsame : same_for_shop shopId db db').

Lemma same_in_window a b :
  filter (Filter.in_window shopId a b) (orders db) =
  filter (Filter.in_window shopId a b) (orders db').
Proof.
  destruct Hsame as (Horders & _).
  rewrite (filter_through _ (λ o, Order.shop_id o = shopId) (orders db))
    by (by intros o [? _]).
  rewrite (filter_through _ (λ o, Order.shop_id o = shopId) (orders db'))
    by (by intros o [? _]).
  by rewrite Horders.
Qed.

Lemma same_validated_in_window a b :
  filter (Filter.validated_in_window shopId a b) (orders db) =
  filter (Filter.validated_in_window shopId a b) (orders db').
Proof.
  destruct Hsame as (Horders & _).
  rewrite (filter_through _ (λ o, Order.shop_id o = shopId) (orders db))
    by (by intros o [? _]).
  rewrite (filter_through _ (λ o, Order.shop_id o = shopId) (orders db'))
    by (by intros o [? _]).
  by rewrite Horders.
Qed.

Lemma same_totals a b :
  totals_query E db shopId a b = totals_query E db' shopId a b.
Proof. unfold totals_query. by rewrite same_in_window. Qed.

Lemma same_status_breakdown a b :
  status_breakdown_query E db shopId a b = status_breakdown_query E db' shopId a b.
Proof. unfold status_breakdown_query. by rewrite same_in_window. Qed.

Lemma same_top_clients R `{∀ x y, Decision (R x y)} a b :
  top_clients_query E db R shopId a b = top_clients_query E db' R shopId a b.
Proof.
  destruct Hsame as (_ & _ & _ & Husers & _).
  unfold top_clients_query, client_groups.
  by rewrite same_validated_in_window, Husers.
Qed.

Lemma same_product_stats a b :
  product_stats_query E db shopId a b = product_stats_query E db' shopId a b.
Proof. unfold product_stats_query. by rewrite same_in_window. Qed.

Lemma same_category_stats a b :
  category_stats_query E db shopId a b = category_stats_query E db' shopId a b.
Proof.
  destruct Hsame as (_ & Hproducts & Hcategories & _).
  unfold category_stats_query, category_rows.
  by rewrite same_in_window, Hproducts, Hcategories.
Qed.

Lemma same_distinct_buyers a b :
  distinct_buyers_query E db shopId a b = distinct_buyers_query E db' shopId a b.
Proof. unfold distinct_buyers_query. by rewrite same_in_window. Qed.
End SameForShop.

(** X4. The reports of a shop read of the order collection only the orders
    of that shop, and of the shop collection only its own record: on two
    stores that agree on these (and on products, categories and users),
    whatever the other shops' orders and records are, each of the five
    handlers gives the same outcome. *)
Theorem reports_ignore_other_shops h E db db' req shopId :
  user_shop_id req = Some shopId →
  same_for_shop shopId db db' →
  getShopOrderSummary h E db req = getShopOrderSummary h E db' req ∧
  getShopTopClients h E db req = getShopTopClients h E db' req ∧
  getShopProductStats h E db req = getShopProductStats h E db' req ∧
  getShopCategoryStats h E db req = getShopCategoryStats h E db' req ∧
  getShopGlobalStats h E db req = getShopGlobalStats h E db' req.
Proof.
  intros Hshop Hsame.
  unfold getShopOrderSummary, getShopTopClients, getShopProductStats,
    getShopCategoryStats, getShopGlobalStats.
  rewrite Hshop. repeat split.
  - destruct (falsy _ || falsy _); [done|].
    destruct (date_window h req) as [[a b]|m]; [|done]. cbn.
    by rewrite (same_totals E shopId db db' Hsame),
               (same_status_breakdown E shopId db db' Hsame).
  - destruct (falsy _ || falsy _); [done|].
    destruct (date_window h req) as [[a b]|m]; [|done]. cbn.
    by rewrite !(same_top_clients E shopId db db' Hsame).
  - destruct (falsy _); [done|].
    destruct (year_window h _) as [[a b]|m]; [|done]. cbn.
    by rewrite (same_product_stats E shopId db db' Hsame).
  - destruct (falsy _); [done|].
    destruct (year_window h _) as [[a b]|m]; [|done]. cbn.
    by rewrite (same_category_stats E shopId db db' Hsame).
  - destruct (falsy _); [done|].
    destruct (year_window h (default "" (query_year req))) as [[a b]|m]; [|done].
    cbn. destruct (year_window h (prevYear _)) as [[a' b']|m]; [|done]. cbn.
    destruct Hsame as (? & ? & ? & ? & Hshops).
    rewrite !(same_totals E shopId db db'), !(same_distinct_buyers E shopId db db'),
      Hshops; done.
Qed.

Lemma reports_ignore_other_shops_witness :
  getShopOrderSummary IsoDate.utc rotated Sample.db Sample.year_2024 =
    getShopOrderSummary IsoDate.utc rotated OtherShop.db Sample.year_2024 ∧
  getShopTopClients IsoDate.utc rotated Sample.db Sample.year_2024 =
    getShopTopClients IsoDate.utc rotated OtherShop.db Sample.year_2024 ∧
  getShopProductStats IsoDate.utc rotated Sample.db Sample.year_2024 =
    getShopProductStats IsoDate.utc rotated OtherShop.db Sample.year_2024 ∧
  getShopCategoryStats IsoDate.utc rotated Sample.db Sample.year_2024 =
    getShopCategoryStats IsoDate.utc rotated OtherShop.db Sample.year_2024 ∧
  getShopGlobalStats IsoDate.utc rotated Sample.db Sample.year_2024 =
    getShopGlobalStats IsoDate.utc rotated OtherShop.db Sample.year_2024.
Proof.
  apply (reports_ignore_other_shops IsoDate.utc rotated Sample.db OtherShop.db
           Sample.year_2024 7%N); [reflexivity|].
  repeat split; reflexivity.
Defined.

(** ** What the product and category rows add up to *)

Lemma length_filter_all {A} (P : A → Prop) `{∀ x, Decision (P x)} (l : list A) :
  length (filter P l) = length l ↔ ∀ x, x ∈ l → P x.
Proof.
  split.
  - intros Hlen x Hx. destruct (decide (P x)) as [|Hn]; [done|].
    pose proof (length_filter_lt P l x Hx Hn). lia.
  - intros Hall. by rewrite filter_all.
Qed.

Lemma product_stats_reply h E db req shopId year a b :
  user_shop_id req = Some shopId →
  query_year req = Some year → year ≠ "" →
  year_window h year = Ok (a, b) →
  reply (getShopProductStats h E db req) =
  {| status := 200;
     json := ProductStatsBody (product_stats_query E db shopId a b) |}.
Proof.
  intros Hshop Hy Hne Hw.
  assert (falsy (query_year req) = false) as Hf
    by (rewrite Hy; by destruct year).
  unfold getShopProductStats. rewrite Hshop, Hf, Hy. cbn. by rewrite Hw.
Qed.

Section Conservation.
Context (E : engine) (db : database) (shopId : ObjectId) (a b : Z).

Let lines :=
  Stage.unwind_items (filter (Filter.in_window shopId a b) (orders db)).

Lemma product_stats_count_sum :
  sum_list (ProductStat.orderCount <$> product_stats_query E db shopId a b) =
  length lines.
Proof.
  unfold product_stats_query. rewrite sort_perm, <- list_fmap_compose.
  fold lines.
  rewrite (group_perm E (Item.product_id ∘ snd)), <- list_fmap_compose.
  apply (group_lengths_sum (Item.product_id ∘ snd)).
  - apply NoDup_remove_dups.
  - intros x Hx. apply elem_of_remove_dups, list_elem_of_fmap. by exists x.
Qed.

Lemma product_stats_count_positive r :
  r ∈ product_stats_query E db shopId a b → (1 ≤ ProductStat.orderCount r)%nat.
Proof.
  intros Hr. apply elem_of_product_stats in Hr as (p & Hp & ->).
  destruct (product_row_first db shopId a b p Hp) as (? & ? & _ & _ & -> & _).
  cbn. lia.
Qed.

End Conservation.

(** X5. The product rows partition the line items of the year: their
    counts add up to the number of line items, and no row has a count of
    0. *)
Theorem product_rows_add_up h E db req shopId year a b :
  user_shop_id req = Some shopId →
  query_year req = Some year → year ≠ "" →
  year_window h year = Ok (a, b) →
  let lines :=
    Stage.unwind_items (filter (Filter.in_window shopId a b) (orders db)) in
  ∃ rows,
    reply (getShopProductStats h E db req) =
      {| status := 200; json := ProductStatsBody rows |} ∧
    sum_list (ProductStat.orderCount <$> rows) = length lines ∧
    (∀ r, r ∈ rows → (1 ≤ ProductStat.orderCount r)%nat).
Proof.
  intros Hshop Hy Hne Hw lines.
  eexists. split; [by eapply product_stats_reply|].
  split; [apply product_stats_count_sum|].
  apply product_stats_count_positive.
Qed.

Lemma product_rows_add_up_witness :
  ∃ rows,
    reply (getShopProductStats IsoDate.utc rotated Sample.db Sample.year_2024) =
      {| status := 200; json := ProductStatsBody rows |} ∧
    sum_list (ProductStat.orderCount <$> rows) = 5%nat ∧
    (∀ r, r ∈ rows → (1 ≤ ProductStat.orderCount r)%nat).
Proof.
  apply (product_rows_add_up IsoDate.utc rotated Sample.db Sample.year_2024
           7%N "2024" 1704067200000 1735689599999);
    [reflexivity|reflexivity|discriminate|reflexivity].
Defined.

(** X7. For one request the counts of the category rows add up to no more
    than those of the product rows, and to as much exactly when every line
    item of the year has a product record. *)
Theorem category_counts_within_product_counts h E db req shopId year a b :
  user_shop_id req = Some shopId →
  query_year req = Some year → year ≠ "" →
  year_window h year = Ok (a, b) →
  let lines :=
    Stage.unwind_items (filter (Filter.in_window shopId a b) (orders db)) in
  ∃ by_product by_category,
    reply (getShopProductStats h E db req) =
      {| status := 200; json := ProductStatsBody by_product |} ∧
    reply (getShopCategoryStats h E db req) =
      {| status := 200; json := CategoryStatsBody by_category |} ∧
    (sum_list (CategoryStat.orderCount <$> by_category)
       ≤ sum_list (ProductStat.orderCount <$> by_product))%nat ∧
    (sum_list (CategoryStat.orderCount <$> by_category) =
       sum_list (ProductStat.orderCount <$> by_product) ↔
     ∀ l, l ∈ lines → is_Some (products db !! Item.product_id l.2)).
Proof.
  intros Hshop Hy Hne Hw lines.
  eexists _, _. split; [by eapply product_stats_reply|].
  split; [by eapply category_stats_reply|].
  rewrite category_stats_count_sum, product_stats_count_sum. fold lines.
  split; [apply length_filter|]. apply length_filter_all.
Qed.

Lemma category_counts_within_product_counts_witness :
  ∃ by_product by_category,
    reply (getShopProductStats IsoDate.utc rotated Sample.db Sample.year_2024) =
      {| status := 200; json := ProductStatsBody by_product |} ∧
    reply (getShopCategoryStats IsoDate.utc rotated Sample.db Sample.year_2024) =
      {| status := 200; json := CategoryStatsBody by_category |} ∧
    (sum_list (CategoryStat.orderCount <$> by_category)
       ≤ sum_list (ProductStat.orderCount <$> by_product))%nat.
Proof.
  destruct (category_counts_within_product_counts IsoDate.utc rotated Sample.db
              Sample.year_2024 7%N "2024" 1704067200000 1735689599999)
    as (prows & crows & Hp & Hc & Hle & _);
    [reflexivity|reflexivity|discriminate|reflexivity|].
  exists prows, crows. exact (conj Hp (conj Hc Hle)).
Defined.

(** ** The top clients, few buyers, and the summary *)

Lemma sum_list_with_sublist {A} (f : A → nat) (k l : list A) :
  k `sublist_of` l → (sum_list_with f k ≤ sum_list_with f l)%nat.
Proof.
  induction 1 as [|x k l _ IH|x k l _ IH]; [done|..].
  - change (f x + sum_list_with f k ≤ f x + sum_list_with f l)%nat. lia.
  - change (sum_list_with f k ≤ f x + sum_list_with f l)%nat. lia.
Qed.

Lemma elem_of_length_positive {A} (x : A) (l : list A) :
  x ∈ l → (1 ≤ length l)%nat.
Proof. destruct 1; cbn; lia. Qed.


Section TopClientsMore.
Context (E : engine) (db : database) (shopId : ObjectId) (a b : Z).

Let validated := filter (Filter.validated_in_window shopId a b) (orders db).

Lemma client_groups_length :
  length (client_groups E db shopId a b) =
  length (remove_dups (Order.buyer_id <$> validated)).
Proof.
  unfold client_groups, Stage.group.
  by rewrite length_fmap, arrange_length, length_fmap.
Qed.

Lemma client_groups_count_sum :
  sum_list (ClientGroup.orderCount <$> client_groups E db shopId a b) =
  length validated.
Proof.
  unfold client_groups. rewrite <- list_fmap_compose.
  rewrite (group_perm E Order.buyer_id), <- list_fmap_compose.
  apply (group_lengths_sum Order.buyer_id).
  - apply NoDup_remove_dups.
  - intros x Hx. apply elem_of_remove_dups, list_elem_of_fmap. by exists x.
Qed.

Lemma top_clients_count_sum R `{∀ x y, Decision (R x y)} :
  (sum_list (Client.orderCount <$> top_clients_query E db R shopId a b)
     ≤ length validated)%nat.
Proof.
  rewrite <- client_groups_count_sum. unfold top_clients_query.
  rewrite <- list_fmap_compose.
  change (Client.orderCount ∘ project_client)
    with (ClientGroup.orderCount ∘ (fst : ClientGroup.t * User.t → ClientGroup.t)).
  rewrite list_fmap_compose.
  rewrite <- (sort_perm E R (client_groups E db shopId a b)) at 2.
  etrans; [|apply (sum_list_with_sublist id), fmap_sublist, (sublist_take _ 5)].
  apply (sum_list_with_sublist id), fmap_sublist, lookup_unwind_sublist.
Qed.

Lemma top_clients_count_positive R `{∀ x y, Decision (R x y)} c :
  c ∈ top_clients_query E db R shopId a b → (1 ≤ Client.orderCount c)%nat.
Proof.
  unfold top_clients_query. intros Hc.
  apply list_elem_of_fmap in Hc as ([r u] & -> & Hru).
  apply elem_of_lookup_unwind in Hru as [Hr _].
  apply elem_of_take in Hr as (i & Hr & _).
  apply list_elem_of_lookup_2, sort_elem_of in Hr.
  apply elem_of_client_groups in Hr as (k & Hk & ->).
  apply list_elem_of_fmap in Hk as (o & -> & Ho).
  apply (elem_of_length_positive o), list_elem_of_filter. by split.
Qed.

(** With at most five buyers the limit cuts nothing. *)
Lemma top_clients_unlimited R `{∀ x y, Decision (R x y)} :
  (length (remove_dups (Order.buyer_id <$> validated)) ≤ 5)%nat →
  top_clients_query E db R shopId a b ≡ₚ
  project_client <$>
    Stage.lookup_unwind (users db) (λ r, Some (ClientGroup._id r))
      ((λ buyer, client_group_row validated buyer) <$>
         remove_dups (Order.buyer_id <$> validated)).
Proof.
  intros Hfew. unfold top_clients_query.
  rewrite take_ge by (rewrite (sort_perm E R), client_groups_length; lia).
  apply fmap_Permutation. unfold Stage.lookup_unwind.
  apply bind_Permutation. rewrite sort_perm. unfold client_groups.
  rewrite (group_perm E Order.buyer_id), <- list_fmap_compose. done.
Qed.
End TopClientsMore.

Lemma top_clients_body_inv h E db req top :
  json (reply (getShopTopClients h E db req)) = TopClientsBody top →
  ∃ shopId a b,
    user_shop_id req = Some shopId ∧ date_window h req = Ok (a, b) ∧
    TopClients.topByCount top =
      top_clients_query E db ClientGroup.orderCount_desc shopId a b ∧
    TopClients.topByAmount top =
      top_clients_query E db ClientGroup.totalAmount_desc shopId a b.
Proof.
  unfold getShopTopClients.
  destruct (user_shop_id req) as [shopId|]; [|done].
  destruct (falsy _ || falsy _); [done|].
  destruct (date_window h req) as [[a b]|m]; [|done]. cbn.
  intros [= <-]. by exists shopId, a, b.
Qed.

Lemma validated_and_pending_within (db : database) shopId a b :
  (length (filter (Filter.validated_in_window shopId a b) (orders db)) +
   length (filter (λ o, Order.status o = "pending")
             (filter (Filter.in_window shopId a b) (orders db)))
   ≤ length (filter (Filter.in_window shopId a b) (orders db)))%nat.
Proof.
  rewrite (filter_through (Filter.validated_in_window shopId a b)
             (Filter.in_window shopId a b))
    by (intros o (? & _ & ?); by split).
  apply two_statuses_within. intros o (_ & Hst & _) Hp.
  rewrite Hp in Hst. revert Hst. by apply (bool_decide_unpack _).
Qed.

(** X8. For one request, the order counts of either view of the top
    clients add up, with the pending orders of the summary, to no more
    than the total of the summary; and every client shown has at least one
    order. *)
Theorem top_clients_within_summary h E db req summary top :
  json (reply (getShopOrderSummary h E db req)) = OrderSummaryBody summary →
  json (reply (getShopTopClients h E db req)) = TopClientsBody top →
  (sum_list (Client.orderCount <$> TopClients.topByCount top) +
     OrderSummary.pendingOrders summary ≤ OrderSummary.totalOrders summary)%nat ∧
  (sum_list (Client.orderCount <$> TopClients.topByAmount top) +
     OrderSummary.pendingOrders summary ≤ OrderSummary.totalOrders summary)%nat ∧
  (∀ c, c ∈ TopClients.topByCount top ∨ c ∈ TopClients.topByAmount top →
     (1 ≤ Client.orderCount c)%nat).
Proof.
  intros Hsummary Htop.
  apply order_summary_body_inv in Hsummary as (shopId & a & b & Hshop & Hw & ->).
  apply top_clients_body_inv in Htop as (shopId' & a' & b' & Hshop' & Hw' & -> & ->).
  rewrite Hshop in Hshop'. rewrite Hw in Hw'.
  injection Hshop' as <-. injection Hw' as <- <-.
  pose proof (validated_and_pending_within db shopId a b) as Hwithin.
  pose proof (top_clients_count_sum E db shopId a b ClientGroup.orderCount_desc).
  pose proof (top_clients_count_sum E db shopId a b ClientGroup.totalAmount_desc).
  unfold summary_of. cbn [OrderSummary.pendingOrders OrderSummary.totalOrders].
  split; [lia|]. split; [lia|].
  intros c [Hc|Hc]; by eapply top_clients_count_positive.
Qed.

Lemma top_clients_sample_body :
  json (reply (getShopTopClients IsoDate.utc in_order Sample.db Sample.january)) =
  TopClientsBody
    {| TopClients.topByCount :=
         [ {| Client._id := 101; Client.orderCount := 2;
              Client.totalAmount := amount 50; Client.firstname := "Ada";
              Client.lastname := "A"; Client.email := "ada@example.org" |} ];
       TopClients.topByAmount :=
         [ {| Client._id := 101; Client.orderCount := 2;
              Client.totalAmount := amount 50; Client.firstname := "Ada";
              Client.lastname := "A"; Client.email := "ada@example.org" |} ] |}.
Proof. vm_compute. same_numbers. Defined.

Lemma top_clients_within_summary_witness :
  ∃ summary top,
    json (reply (getShopOrderSummary IsoDate.utc in_order Sample.db
                   Sample.january)) = OrderSummaryBody summary ∧
    json (reply (getShopTopClients IsoDate.utc in_order Sample.db
                   Sample.january)) = TopClientsBody top ∧
    (sum_list (Client.orderCount <$> TopClients.topByCount top) +
       OrderSummary.pendingOrders summary
       ≤ OrderSummary.totalOrders summary)%nat ∧
    (sum_list (Client.orderCount <$> TopClients.topByAmount top) +
       OrderSummary.pendingOrders summary
       ≤ OrderSummary.totalOrders summary)%nat ∧
    (∀ c, c ∈ TopClients.topByCount top ∨ c ∈ TopClients.topByAmount top →
       (1 ≤ Client.orderCount c)%nat).
Proof.
  eexists _, _. split; [exact order_summary_sample|].
  split; [exact top_clients_sample_body|].
  exact (top_clients_within_summary IsoDate.utc in_order Sample.db
           Sample.january _ _ order_summary_sample top_clients_sample_body).
Defined.

(** X9. With at most five buyers of validated orders in the range, the two
    views of the top clients hold the same rows: one row for every such
    buyer who has a user record, and no other. *)
Theorem few_buyers_all_shown h E db req shopId a b :
  user_shop_id req = Some shopId →
  falsy (query_startDate req) = false →
  falsy (query_endDate req) = false →
  date_window h req = Ok (a, b) →
  let validated := filter (Filter.validated_in_window shopId a b) (orders db) in
  (length (remove_dups (Order.buyer_id <$> validated)) ≤ 5)%nat →
  ∃ byCount byAmount,
    reply (getShopTopClients h E db req) =
      {| status := 200;
         json := TopClientsBody
           {| TopClients.topByCount := byCount;
              TopClients.topByAmount := byAmount |} |} ∧
    byCount ≡ₚ byAmount ∧
    (∀ c, c ∈ byCount ↔
       ∃ buyer user,
         buyer ∈ Order.buyer_id <$> validated ∧ users db !! buyer = Some user ∧
         c = client_row validated buyer user).
Proof.
  intros Hshop Hs He Hw validated Hfew.
  unfold getShopTopClients. rewrite Hshop, Hs, He, Hw. cbn.
  eexists _, _. split; [done|].
  pose proof (top_clients_unlimited E db shopId a b
                ClientGroup.orderCount_desc Hfew) as Hcount.
  pose proof (top_clients_unlimited E db shopId a b
                ClientGroup.totalAmount_desc Hfew) as Hamount.
  split; [etrans; [exact Hcount|symmetry; exact Hamount]|].
  intros c. rewrite Hcount, list_elem_of_fmap. fold validated. split.
  - intros ([r u] & -> & Hru). apply elem_of_lookup_unwind in Hru as [Hr Hu].
    apply list_elem_of_fmap in Hr as (k & -> & Hk).
    rewrite elem_of_remove_dups in Hk. exists k, u.
    split; [done|]. split; [exact Hu|done].
  - intros (k & u & Hk & Hu & ->).
    exists (client_group_row validated k, u). split; [done|].
    apply elem_of_lookup_unwind. split; [|exact Hu].
    apply list_elem_of_fmap. exists k. split; [done|].
    by apply elem_of_remove_dups.
Qed.

Lemma few_buyers_all_shown_witness :
  ∃ byCount byAmount,
    reply (getShopTopClients IsoDate.utc rotated Sample.db Sample.year_2024) =
      {| status := 200;
         json := TopClientsBody
           {| TopClients.topByCount := byCount;
              TopClients.topByAmount := byAmount |} |} ∧
    byCount ≡ₚ byAmount.
Proof.
  destruct (few_buyers_all_shown IsoDate.utc rotated Sample.db Sample.year_2024
              7%N 1704067200000 1735689599999)
    as (byCount & byAmount & Hreply & Hperm & _);
    [reflexivity..|vm_compute; lia|].
  exists byCount, byAmount. exact (conj Hreply Hperm).
Defined.

(** ** The exact helper against a positive previous value *)

Section RoundingOrder.

Local Open Scope Q_scope.



End RoundingOrder.


Lemma toFixed2_zero : toFixed2 0%Qc = 0%Qc.
Proof. by apply Qc_is_canon. Qed.



Lemma percentage_of_same (p : Qc) : p ≠ 0%Qc → ((p - p) / p * Q2Qc 100 = 0)%Qc.
Proof. intros Hp. field. done. Qed.




(** ** The helper on an unchanged value and on a current value of 0 *)

Lemma binary64_sub_same s m e :
  Binary64.sub (SpecFloat.S754_finite s m e) (SpecFloat.S754_finite s m e) =
  SpecFloat.S754_zero false.
Proof.
  unfold Binary64.sub, SpecFloat.SFsub. cbv zeta. by rewrite Z.sub_diag.
Qed.

(** A finite double divided by itself is 1, whatever its mantissa: the
    quotient of the mantissas is exact. *)
Lemma binary64_div_same s t m e :
  Binary64.div (SpecFloat.S754_finite s m e) (SpecFloat.S754_finite t m e) =
  if xorb s t then Binary64.of_Z (-1) else Binary64.of_Z 1.
Proof.
  unfold Binary64.div, SpecFloat.SFdiv, SpecFloat.SFdiv_core_binary.
  cbv zeta. rewrite !Z.sub_diag.
  change (Z.min (SpecFloat.fexp Binary64.prec Binary64.emax 0) 0) with (-53).
  change (0 - -53) with 53. cbv iota.
  rewrite Z.shiftl_mul_pow2 by done.
  pose proof (Z.div_mul (2 ^ 53) (Z.pos m) ltac:(done)) as Hq.
  pose proof (Z.mod_mul (2 ^ 53) (Z.pos m) ltac:(done)) as Hr.
  unfold Z.div, Z.modulo in Hq, Hr.
  rewrite (Z.mul_comm (2 ^ 53)) in Hq, Hr.
  destruct (Z.div_eucl (Z.pos m * 2 ^ 53) (Z.pos m)) as [q r].
  cbn in Hq, Hr. subst q r.
  assert (SpecFloat.new_location (Z.pos m) 0 = SpecFloat.loc_Exact) as ->.
  { unfold SpecFloat.new_location. by destruct (Z.even _). }
  by destruct (xorb s t).
Qed.

Lemma binary64_diff_of_same s m e :
  Binary64.calculatePercentageDiff
    (SpecFloat.S754_finite s m e) (SpecFloat.S754_finite s m e) =
  Binary64.of_Z 0.
Proof.
  unfold Binary64.calculatePercentageDiff.
  replace (Binary64.strict_eq (SpecFloat.S754_finite s m e) (Binary64.of_Z 0))
    with false by by destruct s.
  rewrite binary64_sub_same. by destruct s.
Qed.

Lemma binary64_diff_of_nothing z s m e :
  Binary64.calculatePercentageDiff
    (SpecFloat.S754_zero z) (SpecFloat.S754_finite s m e) =
  Binary64.of_Z (-100).
Proof.
  unfold Binary64.calculatePercentageDiff.
  replace (Binary64.strict_eq (SpecFloat.S754_finite s m e) (Binary64.of_Z 0))
    with false by by destruct s.
  replace (Binary64.sub (SpecFloat.S754_zero z) (SpecFloat.S754_finite s m e))
    with (SpecFloat.S754_finite (negb s) m e) by by destruct z.
  rewrite binary64_div_same. by destruct s.
Qed.

Lemma magnitude_positive m e : (0 < Binary64.magnitude m e)%Q.
Proof.
  unfold Binary64.magnitude. destruct e as [|e|k]; unfold Qlt; cbn; lia.
Qed.

Lemma value_nonzero s m e :
  ∃ q, Binary64.value (SpecFloat.S754_finite s m e) = Fin q ∧ q ≠ 0%Qc ∧
       (bool_decide (0 < q)%Qc = negb s).
Proof.
  pose proof (magnitude_positive m e) as Hpos.
  eexists. split; [reflexivity|]. split.
  - apply Q2Qc_nonzero. destruct s; lra.
  - destruct s; cbn [negb].
    + apply bool_decide_false. unfold Qclt. cbn [Qcanon.this Q2Qc].
      rewrite !Qred_correct. change (Qcanon.this 0%Qc) with 0%Q. lra.
    + apply bool_decide_true. unfold Qclt. cbn [Qcanon.this Q2Qc].
      rewrite !Qred_correct. change (Qcanon.this 0%Qc) with 0%Q. lra.
Qed.

(** Where the previous value is 0 the exact helper and the double helper
    return the same number. *)
Lemma helpers_agree_over_zero (current : Binary64.double) z :
  calculatePercentageDiff
    (Binary64.value current) (Binary64.value (SpecFloat.S754_zero z)) =
  Binary64.value
    (Binary64.calculatePercentageDiff current (SpecFloat.S754_zero z)).
Proof.
  assert (Binary64.value (Binary64.of_Z 100) = of_Z 100) as H100
    by (vm_compute; f_equal; by apply Qc_is_canon).
  change (Binary64.value (SpecFloat.S754_zero z)) with (of_Z 0).
  rewrite binary64_previous_zero by done.
  destruct current as [s|s| |s m e].
  - done.
  - destruct s; [done|].
    change (Binary64.gt (SpecFloat.S754_infinity false) (Binary64.of_Z 0))
      with true.
    cbv iota. by rewrite H100.
  - done.
  - replace (Binary64.gt (SpecFloat.S754_finite s m e) (Binary64.of_Z 0))
      with (negb s) by by destruct s.
    destruct (value_nonzero s m e) as (q & -> & _ & Hq).
    rewrite diff_previous_zero, Hq. destruct s; [done|].
    cbn [negb]. by rewrite H100.
Qed.

Lemma exact_diff_of_same (q : Qc) :
  q ≠ 0%Qc → calculatePercentageDiff (Fin q) (Fin q) = of_Z 0.
Proof.
  intros Hq. rewrite diff_previous_nonzero by done.
  by rewrite percentage_of_same, toFixed2_zero.
Qed.

(** X10. In double precision, against every finite previous value but 0
    the helper gives 0 for an unchanged value and -100 for a current value
    of 0, whatever the sign of that zero; against an infinite previous value
    both are NaN. The exact helper that the global report carries returns
    the same numbers there, and wherever the previous value is 0. *)
Theorem percentage_diff_of_same_and_of_nothing
    (s z : bool) (m : positive) (e : Z) (current : Binary64.double) :
  let x := SpecFloat.S754_finite s m e in
  let zero := SpecFloat.S754_zero z in
  let infinite := SpecFloat.S754_infinity s in
  Binary64.calculatePercentageDiff x x = Binary64.of_Z 0 ∧
  Binary64.calculatePercentageDiff zero x = Binary64.of_Z (-100) ∧
  Binary64.calculatePercentageDiff infinite infinite = SpecFloat.S754_nan ∧
  Binary64.calculatePercentageDiff zero infinite = SpecFloat.S754_nan ∧
  calculatePercentageDiff (Binary64.value x) (Binary64.value x) =
    Binary64.value (Binary64.calculatePercentageDiff x x) ∧
  calculatePercentageDiff (Binary64.value zero) (Binary64.value x) =
    Binary64.value (Binary64.calculatePercentageDiff zero x) ∧
  calculatePercentageDiff (Binary64.value current) (Binary64.value zero) =
    Binary64.value (Binary64.calculatePercentageDiff current zero).
Proof.
  intros x zero infinite. subst x zero infinite.
  assert (Binary64.value (Binary64.of_Z (-100)) = of_Z (-100)) as Hloss
    by (vm_compute; f_equal; by apply Qc_is_canon).
  split; [apply binary64_diff_of_same|].
  split; [apply binary64_diff_of_nothing|].
  split; [by destruct s|]. split; [by destruct s, z|].
  rewrite binary64_diff_of_same, binary64_diff_of_nothing, Hloss.
  destruct (value_nonzero s m e) as (q & -> & Hq & _).
  split; [by apply exact_diff_of_same|].
  split; [|apply helpers_agree_over_zero].
  change (Binary64.value (SpecFloat.S754_zero z)) with (of_Z 0).
  by rewrite diff_current_zero, decide_False.
Qed.

(** ** The global report *)







(** ** The two windows of the global report *)

Lemma four_digit_years_adjoin :
  forallb year_windows_adjoin (seqZ 1001 8999) = true.
Proof. vm_compute. reflexivity. Qed.

(** X12. On a host in UTC, for every four-digit year from 1001 on, the
    window of the year runs from its first midnight for 365 or 366 days,
    and the window of the year before ends one millisecond before it
    begins: no order is counted in both years, and none between them is
    left out. *)
Theorem year_windows_adjacent (y : Z) :
  1001 ≤ y ≤ 9999 →
  ∃ a b a' b',
    year_window IsoDate.utc (pretty y) = Ok (a, b) ∧
    year_window IsoDate.utc (prevYear (pretty y)) = Ok (a', b') ∧
    b' + 1 = a ∧ a' ≤ b' ∧
    a `mod` IsoDate.ms_per_day = 0 ∧
    (b - a + 1 = 365 * IsoDate.ms_per_day ∨
     b - a + 1 = 366 * IsoDate.ms_per_day) ∧
    (∀ shopId o,
       ¬ (Filter.in_window shopId a b o ∧ Filter.in_window shopId a' b' o)) ∧
    (∀ shopId o,
       Order.shop_id o = shopId → a' ≤ Order.created_at o ≤ b →
       Filter.in_window shopId a b o ∨ Filter.in_window shopId a' b' o).
Proof.
  intros Hy.
  pose proof (proj1 (forallb_forall _ _) four_digit_years_adjoin y) as Hok.
  assert (year_windows_adjoin y = true) as Hadjoin.
  { apply Hok, list_elem_of_In, elem_of_seqZ. lia. }
  clear Hok. unfold year_windows_adjoin in Hadjoin.
  destruct (year_window IsoDate.utc (pretty y)) as [[a b]|]; [|done].
  destruct (year_window IsoDate.utc (prevYear (pretty y))) as [[a' b']|]; [|done].
  apply bool_decide_eq_true in Hadjoin as (Hadj & Hprev & Hmid & Hlen).
  cbn [fst snd] in *.
  exists a, b, a', b'. repeat split; try done.
  - intros shopId o [[_ H1] [_ H2]]. lia.
  - intros shopId o Hs Ht. unfold Filter.in_window.
    destruct (decide (a ≤ Order.created_at o)); [left|right]; split; try done; lia.
Qed.

Lemma year_windows_adjacent_witness :
  ∃ a b a' b',
    year_window IsoDate.utc (pretty 2024) = Ok (a, b) ∧
    year_window IsoDate.utc (prevYear (pretty 2024)) = Ok (a', b') ∧
    b' + 1 = a.
Proof.
  destruct (year_windows_adjacent 2024) as (a & b & a' & b' & H1 & H2 & H3 & _);
    [lia|].
  exists a, b, a', b'. exact (conj H1 (conj H2 H3)).
Defined.

(** ** The end of a date range and the time zone *)

Lemma date_part_midnight y1 y2 y3 y4 m1 m2 d1 d2 t :
  IsoDate.date_part y1 y2 y3 y4 m1 m2 d1 d2 = Some t →
  t `mod` IsoDate.ms_per_day = 0.
Proof.
  unfold IsoDate.date_part. intros H.
  destruct (IsoDate.decimal [y1; y2; y3; y4]) as [y|]; [|done].
  destruct (IsoDate.decimal [m1; m2]) as [m|]; [|done].
  destruct (IsoDate.decimal [d1; d2]) as [d|]; [|done].
  cbn in H. destruct (bool_decide _); [|done].
  injection H as <-. apply Z.mod_mul. done.
Qed.

Lemma parse_date_only_midnight (s : string) t :
  String.length s = 10%nat → IsoDate.parse s = Some t →
  t `mod` IsoDate.ms_per_day = 0.
Proof.
  intros Hlen. 
  do 10 (destruct s as [|? s]; [done|]). destruct s; [|done]. clear Hlen.
  unfold IsoDate.parse. cbn [String.list_ascii_of_string].
  intros H.
  repeat match type of H with
         | context [match ?c with Ascii _ _ _ _ _ _ _ _ => _ end] => destruct c
         | context [if ?b then _ else _] => destruct b; try discriminate H
         end.
  by eapply date_part_midnight.
Qed.

Lemma end_of_local_day_of_midnight (offset t : Z) :
  - IsoDate.ms_per_day < offset < IsoDate.ms_per_day →
  t `mod` IsoDate.ms_per_day = 0 →
  Zone.end_of_local_day offset t =
  if decide (0 ≤ offset) then t + (IsoDate.ms_per_day - 1) - offset
  else t - 1 - offset.
Proof.
  unfold Zone.end_of_local_day, IsoDate.ms_per_day. intros Hoff Ht.
  apply Z.mod_divide in Ht as [k ->]; [|done].
  rewrite (Z.add_comm (k * 86400000) offset), Z_mod_plus_full.
  destruct (decide (0 ≤ offset)).
  - rewrite Z.mod_small by lia. lia.
  - replace offset with ((offset + 86400000) + (-1) * 86400000) at 2 by lia.
    rewrite Z_mod_plus_full, Z.mod_small by lia. lia.
Qed.

(** X13. On a host whose clock is a fixed offset from UTC, a range given
    by two ISO dates starts at the UTC midnight of the start date and ends
    at the last millisecond of the local day in which the UTC midnight of
    the end date falls: east of UTC that is the end date short of its last
    [offset] milliseconds, and west of UTC it is only the first [-offset]
    milliseconds of the end date. At offset 0 the end date is covered
    whole. *)
Theorem range_end_follows_local_day offset req startDate endDate t1 t2 :
  - IsoDate.ms_per_day < offset < IsoDate.ms_per_day →
  query_startDate req = Some startDate →
  query_endDate req = Some endDate →
  String.length endDate = 10%nat →
  IsoDate.parse startDate = Some t1 →
  IsoDate.parse endDate = Some t2 →
  date_window (Zone.host_at offset) req =
    Ok (t1, if decide (0 ≤ offset)
            then t2 + (IsoDate.ms_per_day - 1) - offset
            else t2 - 1 - offset) ∧
  t2 `mod` IsoDate.ms_per_day = 0.
Proof.
  intros Hoff Hs He Hlen Ht1 Ht2.
  pose proof (parse_date_only_midnight endDate t2 Hlen Ht2) as Hmid.
  split; [|done].
  unfold date_window. rewrite Hs, He. cbn. rewrite Ht1, Ht2. cbn.
  by rewrite end_of_local_day_of_midnight.
Qed.

Lemma range_end_follows_local_day_witness :
  date_window (Zone.host_at (-18000000)) Sample.january =
    Ok (1704067200000, 1706659200000 - 1 + 18000000) ∧
  1706659200000 `mod` IsoDate.ms_per_day = 0.
Proof.
  apply (range_end_follows_local_day (-18000000) Sample.january
           "2024-01-01" "2024-01-31" 1704067200000 1706659200000);
    [unfold IsoDate.ms_per_day; lia | reflexivity..].
Defined.
